(** * wrapspawner: WrapSpawner and ProfilesSpawner

    A shallow embedding of [wrapspawner/wrapspawner.py].

    Python objects that the module shares and mutates in place (the
    [child_config] dict, the config dict of a catalog entry, the state
    mapping handed to [load_state], the wrapped spawner instance) live in
    an explicit store and are named by references, so that aliasing is
    visible.  Methods are computations in a small state-and-exception
    monad over that store plus the fields of [self].

    What lies outside the module is modelled as follows.
    - traitlets: assigning to a [Dict] or [Type] trait stores the object
      given (a [Dict()] without element traits validates the type and
      returns its argument); a [Unicode] trait keeps a string and decodes
      [bytes] that are all ASCII; any other value is a [TraitError].
    - jupyterhub's [Spawner]: its [load_state] and [clear_state] touch no
      trait of this module, its [get_state] returns a new empty dict.
    - the child class: the call [child_class(user=..., ...,
      **child_config)] raises [TypeError] when [child_config] repeats a
      keyword given by name; otherwise the constructor succeeds.
      [clear_state] empties the child's state, [load_state] replaces it by the mapping given,
      [get_state] returns it in a new dict.  Every call a child receives is
      logged on it, so that the order of calls can be stated.

    The options form ([_options_form_default] and its templates) is not
    modelled. *)

From Stdlib Require Import ZArith String List.
From stdpp Require Import gmap strings list fin_maps.

Local Open Scope string_scope.

(** ** Values, dicts and references *)

(** A reference is an index into one of the two stores of a [World]. *)
Definition loc := nat.

(** The values that occur in config dicts, state mappings and user
    options.  A nested dict is held by reference, as in Python. *)
Inductive value :=
| VNone
| VInt (n : Z)
| VStr (s : string)
| VDict (d : loc)
| VBytes (b : string).   (* a [bytes] object, one character per byte *)

Abbreviation dict := (gmap string value).

#[global] Instance value_eq_dec : EqDecision value.
Proof. unfold loc. solve_decision. Defined.

(** [Type(Spawner)]: a spawner class.  [LocalProcessSpawner] is the one
    class the module names; every other subclass of [Spawner] is given by
    its name. *)
Inductive SpawnerClass :=
| LocalProcessSpawner
| SpawnerSubclass (name : string).

(** ** Futures *)

(** A tornado [Future] as far as this module uses it: created empty,
    completed by [set_result], which the module only calls on a future it
    has just created. *)
Inductive Future :=
| FuturePending
| FutureDone (result : value).

Definition set_result (f : Future) (x : value) : Future := FutureDone x.

(** [_yield_val(x=None)], lines 43-46. *)
Definition _yield_val (x : value) : Future :=
  let f := FuturePending in
  set_result f x.

(** ** The wrapped spawner (the child) *)

(** The calls a child instance has received, oldest first. *)
Inductive ChildCall :=
| CalledClearState
| CalledLoadState (state : dict)
| CalledGetState
| CalledPreSpawnHook
| CalledStart
| CalledStop (now : bool)
| CalledPoll.

(** A progress stream: the events the child reports. *)
Abbreviation ProgressStream := (list (Z * string)).

Record ChildSpawner := {
  cs_type : SpawnerClass;      (* the class it was built from *)
  cs_kwargs : dict;            (* the [**self.child_config] it was built with *)
  cs_state : dict;             (* its own persisted state *)
  cs_linked : gset string;     (* traits linked from the wrapper *)
  cs_calls : list ChildCall;
}.

(** What the module takes from outside: the trait names of the wrapper and
    of each child class, the state a new child instance finds itself in
    (line 82: "it will see *our* state"), the answers of a child's [start],
    [stop] and [poll], its progress stream, and whether the installed
    [Spawner] base class has a [progress] attribute (line 145). *)
Class Environment := {
  self_trait_names : gset string;
  class_trait_names : SpawnerClass → gset string;
  inherited_state : SpawnerClass → dict → dict;
  child_start : ChildSpawner → Future;
  child_stop : ChildSpawner → bool → Future;
  child_poll : ChildSpawner → Future;
  child_progress : ChildSpawner → ProgressStream;
  Spawner_has_progress : bool;
}.

(** ** Profiles and the fields of [self] *)

(** One catalog entry: the 5-tuple
    [(display, key, description, Spawner class, config dict)].
    The config dict is an object of its own, held by reference. *)
Record Profile := {
  p0_display : string;
  p1_key : string;
  p2_description : string;
  p3_type : SpawnerClass;
  p4_config : loc;
}.

(** The traits of a [ProfilesSpawner]; a plain [WrapSpawner] uses the first
    five only.  [user_options] is inherited from [Spawner] and only read. *)
Record Self := {
  user_options : dict;
  child_class : SpawnerClass;
  child_config : loc;
  child_state : loc;
  child_spawner : option loc;
  profiles : list Profile;
  child_profile : string;
}.

Record World := {
  dicts : list dict;            (* every dict object, by reference *)
  objs : list ChildSpawner;     (* every child instance, by reference *)
  self : Self;
}.

(** ** Exceptions and the monad *)

Inductive Exn :=
| IndexError
| KeyError (key : string)
| TypeError
| ValueError
| TraitError (trait : string)
| AttributeError (attr : string)
| RuntimeError (msg : string)
| NoSuchObject.   (* not a Python exception: a reference into nothing *)

Inductive Outcome (A : Type) :=
| Returns (a : A) (w : World)
| Raises (e : Exn).
Arguments Returns {A} a w.
Arguments Raises {A} e.

Definition Py (A : Type) : Type := World → Outcome A.

Definition ret {A} (a : A) : Py A := λ w, Returns a w.

Definition raise {A} (e : Exn) : Py A := λ _, Raises e.

Definition bind {A B} (m : Py A) (k : A → Py B) : Py B :=
  λ w, match m w with
       | Returns a w' => k a w'
       | Raises e => Raises e
       end.

Declare Scope py_scope.
Delimit Scope py_scope with py.
Notation "'let*' x := m 'in' k" := (bind m (λ x, k))
  (at level 10, x name, m at level 100, k at level 200) : py_scope.
Notation "m >> k" := (bind m (λ _, k))
  (at level 100, k at level 200, right associativity) : py_scope.
Local Open Scope py_scope.

(** [try: body except KeyError: handler].  Nothing in the module mutates
    before the lookup that may fail, so the handler resumes in the world
    the [try] started in. *)
Definition try_except_KeyError {A} (body handler : Py A) : Py A :=
  λ w, match body w with
       | Raises (KeyError _) => handler w
       | o => o
       end.

(** ** Reading and writing the store and [self] *)

Definition get_self : Py Self := λ w, Returns (self w) w.

Definition put_self (s : Self) : Py unit :=
  λ w, Returns () {| dicts := dicts w; objs := objs w; self := s |}.

(** In Python a reference always names an object.  A [World] may hold an
    index outside its store; there a dict reads as empty, a write is lost,
    and asking for a child instance stops with [NoSuchObject]. *)
Definition deref (d : loc) : Py dict :=
  λ w, Returns (default ∅ (dicts w !! d)) w.

Definition store (d : loc) (m : dict) : Py unit :=
  λ w, Returns () {| dicts := <[d := m]> (dicts w); objs := objs w; self := self w |}.

(** A dict display [{...}]: a new object. *)
Definition new_dict (m : dict) : Py loc :=
  λ w, Returns (length (dicts w))
         {| dicts := dicts w ++ [m]; objs := objs w; self := self w |}.

Definition new_obj (b : ChildSpawner) : Py loc :=
  λ w, Returns (length (objs w))
         {| dicts := dicts w; objs := objs w ++ [b]; self := self w |}.

Definition get_obj (c : loc) : Py ChildSpawner :=
  λ w, match objs w !! c with
       | Some b => Returns b w
       | None => Raises NoSuchObject
       end.

Definition update_obj (c : loc) (f : ChildSpawner → ChildSpawner) : Py unit :=
  λ w, Returns () {| dicts := dicts w; objs := alter f c (objs w); self := self w |}.

(** Trait assignments [self.<trait> = v]. *)
Definition set_child_class (s : Self) (v : SpawnerClass) : Self :=
  {| user_options := user_options s; child_class := v;
     child_config := child_config s; child_state := child_state s;
     child_spawner := child_spawner s; profiles := profiles s;
     child_profile := child_profile s |}.

Definition set_child_config (s : Self) (v : loc) : Self :=
  {| user_options := user_options s; child_class := child_class s;
     child_config := v; child_state := child_state s;
     child_spawner := child_spawner s; profiles := profiles s;
     child_profile := child_profile s |}.

Definition set_child_state (s : Self) (v : loc) : Self :=
  {| user_options := user_options s; child_class := child_class s;
     child_config := child_config s; child_state := v;
     child_spawner := child_spawner s; profiles := profiles s;
     child_profile := child_profile s |}.

Definition set_child_spawner (s : Self) (v : option loc) : Self :=
  {| user_options := user_options s; child_class := child_class s;
     child_config := child_config s; child_state := child_state s;
     child_spawner := v; profiles := profiles s;
     child_profile := child_profile s |}.

Definition set_child_profile (s : Self) (v : string) : Self :=
  {| user_options := user_options s; child_class := child_class s;
     child_config := child_config s; child_state := child_state s;
     child_spawner := child_spawner s; profiles := profiles s;
     child_profile := v |}.

Definition assign (f : Self → Self) : Py unit :=
  let* s := get_self in put_self (f s).

(** A [Dict] trait accepts a dict and keeps the very object it is given
    (no element traits are declared, so nothing is rebuilt); anything else
    is a [TraitError]. *)
Definition as_Dict (trait : string) (v : value) : Py loc :=
  match v with
  | VDict d => ret d
  | _ => raise (TraitError trait)
  end.

(** Whether every byte is below 128. *)
Fixpoint is_ascii (b : string) : bool :=
  match b with
  | EmptyString => true
  | String (Ascii.Ascii _ _ _ _ _ _ _ b7) rest => negb b7 && is_ascii rest
  end.

(** What a [Unicode] trait makes of a value: a string is kept, [bytes] that
    are all ASCII are decoded, anything else is refused. *)
Definition unicode_of (v : value) : option string :=
  match v with
  | VStr s => Some s
  | VBytes b => if is_ascii b then Some b else None
  | _ => None
  end.

(** Assignment to a [Unicode] trait. *)
Definition as_Unicode (trait : string) (v : value) : Py string :=
  match unicode_of v with
  | Some s => ret s
  | None => raise (TraitError trait)
  end.

(** ** Dict methods *)

(** [d.get(key, dflt)] *)
Definition dict_get (d : loc) (key : string) (dflt : value) : Py value :=
  let* m := deref d in ret (default dflt (m !! key)).

(** [d[key]] *)
Definition dict_getitem (d : loc) (key : string) : Py value :=
  let* m := deref d in
  match m !! key with
  | Some v => ret v
  | None => raise (KeyError key)
  end.

(** [d[key] = v] *)
Definition dict_setitem (d : loc) (key : string) (v : value) : Py unit :=
  let* m := deref d in store d (<[key := v]> m).

(** [d.update(other)]: the entries of [other] win.  [other] must be a
    mapping or an iterable of pairs; of the values modelled, a dict
    qualifies, and so do the empty string and empty [bytes] (empty
    iterables).  A character of a string is a sequence of the wrong length,
    a byte is no sequence at all. *)
Definition dict_update (d : loc) (other : value) : Py unit :=
  match other with
  | VDict o =>
      let* mo := deref o in
      let* m := deref d in
      store d (mo ∪ m)
  | VStr "" => ret ()
  | VStr _ => raise ValueError
  | VBytes "" => ret ()
  | VBytes _ => raise TypeError
  | VNone | VInt _ => raise TypeError
  end.

(** [bool(d)] for a dict: [len(d) != 0]. *)
Definition dict_truthy (m : dict) : bool := negb (size m =? 0)%nat.

(** [bool(o)] for [None] or an instance: a [Spawner] defines neither
    [__bool__] nor [__len__], so every instance is true.  Where a branch
    of [if self.child_spawner:] goes on to use the instance, the model
    matches on the option instead. *)
Definition obj_truthy (o : option loc) : bool :=
  match o with
  | Some _ => true
  | None => false
  end.

(** ** The child's side of the contract *)

Definition called (call : ChildCall) (b : ChildSpawner) : ChildSpawner :=
  {| cs_type := cs_type b; cs_kwargs := cs_kwargs b; cs_state := cs_state b;
     cs_linked := cs_linked b; cs_calls := cs_calls b ++ [call] |}.

Definition with_state (m : dict) (b : ChildSpawner) : ChildSpawner :=
  {| cs_type := cs_type b; cs_kwargs := cs_kwargs b; cs_state := m;
     cs_linked := cs_linked b; cs_calls := cs_calls b |}.

Definition with_links (ts : gset string) (b : ChildSpawner) : ChildSpawner :=
  {| cs_type := cs_type b; cs_kwargs := cs_kwargs b; cs_state := cs_state b;
     cs_linked := cs_linked b ∪ ts; cs_calls := cs_calls b |}.

(** The keywords that [construct_child] gives by name in the call of the
    child class (lines 72-78).  Their values are attributes the supervisor
    inherits from [Spawner]; only their names bear on what the module
    does. *)
Definition explicit_keywords : list string :=
  ["user"; "db"; "hub"; "authenticator"; "oauth_client_id"; "server"; "config"].

(** The first explicit keyword that [**kwargs] gives again, if any. *)
Definition repeated_keyword (kwargs : dict) : option string :=
  List.find (λ k, match kwargs !! k with Some _ => true | None => false end)
    explicit_keywords.

Module Child.
Section Child.
Context `{Environment}.

(** The instance that the constructor makes of the keyword arguments it
    receives through [**kwargs]. *)
Definition init (cls : SpawnerClass) (kwargs : dict) : ChildSpawner :=
  {| cs_type := cls; cs_kwargs := kwargs;
     cs_state := inherited_state cls kwargs;
     cs_linked := ∅; cs_calls := [] |}.

(** The call [child_class(user=..., ..., **kwargs)] of lines 71-80.
    Python binds the keywords before the class sees them, and refuses a
    keyword given twice with [TypeError]: then no instance is made. *)
Definition call (cls : SpawnerClass) (kwargs : dict) : Py loc :=
  match repeated_keyword kwargs with
  | Some _ => raise TypeError
  | None => new_obj (init cls kwargs)
  end.

Definition clear_state (c : loc) : Py unit :=
  update_obj c (λ b, called CalledClearState (with_state ∅ b)).

Definition load_state (c : loc) (state : loc) : Py unit :=
  let* m := deref state in
  update_obj c (λ b, called (CalledLoadState m) (with_state m b)).

Definition get_state (c : loc) : Py loc :=
  let* b := get_obj c in
  update_obj c (called CalledGetState) >>
  new_dict (cs_state b).

Definition run_pre_spawn_hook (c : loc) : Py unit :=
  update_obj c (called CalledPreSpawnHook).

Definition start (c : loc) : Py Future :=
  let* b := get_obj c in
  update_obj c (called CalledStart) >>
  ret (child_start b).

Definition stop (c : loc) (now : bool) : Py Future :=
  let* b := get_obj c in
  update_obj c (called (CalledStop now)) >>
  ret (child_stop b now).

Definition poll (c : loc) : Py Future :=
  let* b := get_obj c in
  update_obj c (called CalledPoll) >>
  ret (child_poll b).

Definition progress (c : loc) : Py ProgressStream :=
  let* b := get_obj c in
  ret (child_progress b).

Definition trait_names (c : loc) : Py (gset string) :=
  let* b := get_obj c in
  ret (class_trait_names (cs_type b)).

End Child.
End Child.

(** ** The base class [jupyterhub.spawner.Spawner]

    Its state methods touch none of the traits declared in this module;
    [get_state] hands out a new, empty dict. *)
Module Spawner.

Definition load_state (state : loc) : Py unit := ret ().

Definition get_state : Py loc := new_dict ∅.

Definition clear_state : Py unit := ret ().

End Spawner.

(** The two methods that [WrapSpawner] calls on [self] and that
    [ProfilesSpawner] overrides: which body runs depends on the class of
    [self]. *)
Record Overridable := {
  do_construct_child : Py (option loc);
  do_load_child_class : loc → Py unit;
}.

(** ** class WrapSpawner(Spawner) *)
Module WrapSpawner.
Section WrapSpawner.
Context `{Environment}.

(** Lines 69-96.  The result is [self.child_spawner].  The call at lines
    71-80 gives seven keywords by name and the entries of [child_config]
    through [**]; it raises when a keyword is given twice, and the method
    with it. *)
Definition construct_child : Py (option loc) :=
  let* s := get_self in
  (if decide (child_spawner s = None) then
     let* kwargs := deref (child_config s) in
     let* c := Child.call (child_class s) kwargs in
     assign (λ s, set_child_spawner s (Some c)) >>
     (* initial state will always be wrong since it will see *our* state *)
     Child.clear_state c >>
     let* st := deref (child_state s) in
     (if dict_truthy st then Child.load_state c (child_state s) else ret ()) >>
     (* link traits common between self and child *)
     let* theirs := Child.trait_names c in
     let* cfg := deref (child_config s) in
     let common_traits := self_trait_names ∩ (theirs ∖ dom cfg) in
     update_obj c (with_links common_traits)
   else ret ()) >>
  let* s := get_self in
  ret (child_spawner s).

(** Lines 98-100. *)
Definition load_child_class (state : loc) : Py unit := ret ().

(** Lines 102-107.  [self.load_child_class] and [self.construct_child] are
    looked up on the class of [self]. *)
Definition load_state (cls : Overridable) (state : loc) : Py unit :=
  Spawner.load_state state >>
  do_load_child_class cls state >>
  let* s := get_self in
  let* empty := new_dict ∅ in
  let* conf := dict_get state "child_conf" (VDict empty) in
  dict_update (child_config s) conf >>
  let* empty := new_dict ∅ in
  let* st := dict_get state "child_state" (VDict empty) in
  let* st := as_Dict "child_state" st in
  assign (λ s, set_child_state s st) >>
  do_construct_child cls >>
  ret ().

(** Lines 109-114. *)
Definition get_state : Py loc :=
  let* state := Spawner.get_state in
  let* s := get_self in
  dict_setitem state "child_conf" (VDict (child_config s)) >>
  (match child_spawner s with
   | Some c =>
       let* cst := Child.get_state c in
       assign (λ s, set_child_state s cst) >>
       dict_setitem state "child_state" (VDict cst)
   | None => ret ()
   end) >>
  ret state.

(** Lines 116-122. *)
Definition clear_state : Py unit :=
  Spawner.clear_state >>
  let* s := get_self in
  (match child_spawner s with
   | Some c => Child.clear_state c
   | None => ret ()
   end) >>
  let* d := new_dict ∅ in
  assign (λ s, set_child_state s d) >>
  let* d := new_dict ∅ in
  assign (λ s, set_child_config s d) >>
  assign (λ s, set_child_spawner s None).

(** Lines 127-131. *)
Definition start (cls : Overridable) : Py Future :=
  let* s := get_self in
  (if negb (obj_truthy (child_spawner s))
   then do_construct_child cls >> ret ()
   else ret ()) >>
  let* s := get_self in
  match child_spawner s with
  | Some c => Child.run_pre_spawn_hook c >> Child.start c
  | None => raise (AttributeError "run_pre_spawn_hook")
  end.

(** Lines 133-137. *)
Definition stop (now : bool) : Py Future :=
  let* s := get_self in
  match child_spawner s with
  | Some c => Child.stop c now
  | None => ret (_yield_val VNone)
  end.

(** Lines 139-143. *)
Definition poll : Py Future :=
  let* s := get_self in
  match child_spawner s with
  | Some c => Child.poll c
  | None => ret (_yield_val (VInt 1))
  end.

(** Lines 145-151.  The property exists only when the base class has one;
    without it the attribute lookup on [self] fails. *)
Definition progress : Py ProgressStream :=
  if Spawner_has_progress then
    let* s := get_self in
    match child_spawner s with
    | Some c => Child.progress c
    | None => raise (RuntimeError "No child spawner yet exists - can not get progress yet")
    end
  else raise (AttributeError "progress").

Definition methods : Overridable :=
  {| do_construct_child := construct_child;
     do_load_child_class := load_child_class |}.

End WrapSpawner.
End WrapSpawner.

(** ** class ProfilesSpawner(WrapSpawner) *)
Module ProfilesSpawner.
Section ProfilesSpawner.
Context `{Environment}.

(** The default value of the [profiles] trait (lines 164-165), given the
    reference of its config dict
    [{'start_timeout': 15, 'http_timeout': 10}]. *)
Definition default_profile_config : dict :=
  {[ "start_timeout" := VInt 15; "http_timeout" := VInt 10 ]}.

Definition default_profile (config : loc) : Profile :=
  {| p0_display := "Local Notebook Server"; p1_key := "local";
     p2_description := "local test notebook";
     p3_type := LocalProcessSpawner; p4_config := config |}.

Definition default_profiles (config : loc) : list Profile :=
  [ default_profile config ].

(** Lines 211-213.  [formdata] maps a field name to the list of values
    submitted for it.  The default [[self.profiles[0][1]]] is evaluated
    before [get] is called.  The dict returned is new and returned by
    content. *)
Definition options_from_form (formdata : gmap string (list string)) : Py dict :=
  let* s := get_self in
  let* first :=
    match profiles s !! 0%nat with
    | Some p => ret (p1_key p)
    | None => raise IndexError
    end in
  let chosen := default [first] (formdata !! "profile") in
  match chosen !! 0%nat with
  | Some v => ret {[ "profile" := VStr v ]}
  | None => raise IndexError
  end.

(** Lines 219-223: the [for] loop, left at the first match by [break].
    [self.child_config = p[4]] binds the trait to the config dict of the
    entry itself. *)
Fixpoint select_profile_loop (ps : list Profile) (profile : string) : Py unit :=
  match ps with
  | [] => ret ()
  | p :: rest =>
      if String.eqb (p1_key p) profile then
        assign (λ s, set_child_class s (p3_type p)) >>
        assign (λ s, set_child_config s (p4_config p))
      else select_profile_loop rest profile
  end.

(** Lines 217-223. *)
Definition select_profile (profile : string) : Py unit :=
  let* s := get_self in
  select_profile_loop (profiles s) profile.

(** Lines 225-228.  The result of [super().construct_child()] is dropped:
    the method returns [None]. *)
Definition construct_child : Py (option loc) :=
  let* s := get_self in
  let* profile := as_Unicode "child_profile"
                    (default (VStr "") (user_options s !! "profile")) in
  assign (λ s, set_child_profile s profile) >>
  let* s := get_self in
  select_profile (child_profile s) >>
  WrapSpawner.construct_child >>
  ret None.

(** Lines 230-235. *)
Definition load_child_class (state : loc) : Py unit :=
  try_except_KeyError
    (let* v := dict_getitem state "profile" in
     let* profile := as_Unicode "child_profile" v in
     assign (λ s, set_child_profile s profile))
    (assign (λ s, set_child_profile s "")) >>
  let* s := get_self in
  select_profile (child_profile s).

Definition methods : Overridable :=
  {| do_construct_child := construct_child;
     do_load_child_class := load_child_class |}.

(** [load_state] and [start] are inherited; on a [ProfilesSpawner] they
    reach the two overrides above. *)
Definition load_state (state : loc) : Py unit :=
  WrapSpawner.load_state methods state.

Definition start : Py Future := WrapSpawner.start methods.

(** Lines 237-240. *)
Definition get_state : Py loc :=
  let* state := WrapSpawner.get_state in
  let* s := get_self in
  dict_setitem state "profile" (VStr (child_profile s)) >>
  ret state.

(** Lines 242-244. *)
Definition clear_state : Py unit :=
  WrapSpawner.clear_state >>
  assign (λ s, set_child_profile s "").

End ProfilesSpawner.
End ProfilesSpawner.

(** [load_state] and [start] on a plain [WrapSpawner]. *)
Definition WrapSpawner_load_state `{Environment} (state : loc) : Py unit :=
  WrapSpawner.load_state WrapSpawner.methods state.

Definition WrapSpawner_start `{Environment} : Py Future :=
  WrapSpawner.start WrapSpawner.methods.

(** ** A concrete environment and concrete worlds *)

(** An environment for running the methods: the wrapper and every child
    class share the traits [user] and [start_timeout]; a new child starts
    out with a stale [pid] in its state; a child reports itself running. *)
Definition demo_env : Environment :=
  {| self_trait_names := {[ "user"; "start_timeout"; "child_config" ]};
     class_trait_names := λ _, {[ "user"; "start_timeout"; "pid" ]};
     inherited_state := λ _ _, {[ "pid" := VInt 4242 ]};
     child_start := λ _, FutureDone (VStr "127.0.0.1");
     child_stop := λ _ _, FutureDone VNone;
     child_poll := λ _, FutureDone VNone;
     child_progress := λ _, [(50%Z, "Spawning")];
     Spawner_has_progress := true |}.

(** A [ProfilesSpawner] as created: default catalog (its config dict at
    reference 0), [child_config] and [child_state] two empty dicts of its
    own, no child, and the given user options. *)
Definition fresh_self (options : dict) : Self :=
  {| user_options := options;
     child_class := LocalProcessSpawner;
     child_config := 1%nat;
     child_state := 2%nat;
     child_spawner := None;
     profiles := ProfilesSpawner.default_profiles 0%nat;
     child_profile := "" |}.

Definition fresh_world (options : dict) : World :=
  {| dicts := [ProfilesSpawner.default_profile_config; ∅; ∅];
     objs := [];
     self := fresh_self options |}.

(** The same store seen from another supervisor. *)
Definition with_self (s : Self) (w : World) : World :=
  {| dicts := dicts w; objs := objs w; self := s |}.


(** The child that [WrapSpawner.construct_child] leaves behind when it
    starts from a supervisor [s] without one, in a store [ds]. *)
Definition built_child `{Environment} (ds : list dict) (s : Self) : ChildSpawner :=
  let kwargs := default ∅ (ds !! child_config s) in
  let st := default ∅ (ds !! child_state s) in
  let b0 := Child.init (child_class s) kwargs in
  let b1 := called CalledClearState (with_state ∅ b0) in
  let b2 := if dict_truthy st
            then called (CalledLoadState st) (with_state st b1) else b1 in
  with_links (self_trait_names ∩ (class_trait_names (child_class s) ∖ dom kwargs)) b2.

(** Creating another [ProfilesSpawner]: its [child_config] and
    [child_state] default to two new empty dicts, it has no child, and
    [self] now names it. *)
Definition new_ProfilesSpawner (options : dict) (catalog : list Profile) : Py unit :=
  let* config := new_dict ∅ in
  let* state := new_dict ∅ in
  put_self {| user_options := options;
              child_class := LocalProcessSpawner;
              child_config := config;
              child_state := state;
              child_spawner := None;
              profiles := catalog;
              child_profile := "" |}.

(** A supervisor builds its child and saves its state; a second supervisor
    over the same catalog, created with no user options, loads that state.
    The result is the saved state and the two supervisors at the end. *)
Definition save_then_load `{Environment} : Py (loc * Self * Self) :=
  ProfilesSpawner.construct_child >>
  let* state := ProfilesSpawner.get_state in
  let* original := get_self in
  new_ProfilesSpawner ∅ (profiles original) >>
  ProfilesSpawner.load_state state >>
  let* restored := get_self in
  ret (state, original, restored).

(** A supervisor over the default catalog loads a state saved when the
    profile [local] still carried a [mem_limit]. *)
Definition load_older_state `{Environment} : Py unit :=
  let* conf := new_dict {[ "mem_limit" := VStr "4G" ]} in
  let* state := new_dict {[ "profile" := VStr "local";
                            "child_conf" := VDict conf ]} in
  ProfilesSpawner.load_state state.

(** A catalog of two profiles and a supervisor whose user chose the second
    one. *)
Definition two_profiles : list Profile :=
  [ ProfilesSpawner.default_profile 0%nat;
    {| p0_display := "Docker Notebook Server"; p1_key := "docker";
       p2_description := "notebook in a container";
       p3_type := SpawnerSubclass "DockerSpawner"; p4_config := 1%nat |} ].

Definition docker_world : World :=
  {| dicts := [ProfilesSpawner.default_profile_config;
               {[ "image" := VStr "jupyter/base-notebook" ]}; ∅; ∅];
     objs := [];
     self := {| user_options := {[ "profile" := VStr "docker" ]};
                child_class := LocalProcessSpawner;
                child_config := 2%nat;
                child_state := 3%nat;
                child_spawner := None;
                profiles := two_profiles;
                child_profile := "" |} |}.

(** Save and load as in [save_then_load], then once more: the supervisor
    that loaded the state saves its own, and a third one loads that. *)
Definition save_then_load_twice `{Environment} : Py (Self * Self * Self) :=
  ProfilesSpawner.construct_child >>
  let* state := ProfilesSpawner.get_state in
  let* original := get_self in
  new_ProfilesSpawner ∅ (profiles original) >>
  ProfilesSpawner.load_state state >>
  let* state := ProfilesSpawner.get_state in
  let* second := get_self in
  new_ProfilesSpawner ∅ (profiles second) >>
  ProfilesSpawner.load_state state >>
  let* third := get_self in
  ret (original, second, third).

(** A supervisor that has built its child: the world in which
    [construct_child] leaves a new [ProfilesSpawner] whose user chose the
    profile [local]. *)
Definition built_world : World :=
  match @ProfilesSpawner.construct_child demo_env
          (fresh_world {[ "profile" := VStr "local" ]}) with
  | Returns _ w => w
  | Raises _ => fresh_world ∅
  end.

(** ** Predicates used in the statements *)

(** [keeps f m]: whenever [m] returns, the part [f] of [self] is what it
    was. *)
Definition keeps {A B} (f : Self → B) (m : Py A) : Prop :=
  ∀ w a w', m w = Returns a w' → f (self w') = f (self w).

(** [w'] has the catalog of [w], and every dict of [w] has in [w'] the
    content it had. *)
Definition catalog_kept (w w' : World) : Prop :=
  profiles (self w') = profiles (self w) ∧
  ∀ l, l < length (dicts w) → dicts w' !! l = dicts w !! l.

(** [child_profile] in [w'] is the profile recorded in the user options
    [options], as the [Unicode] trait reads it, or [''] when they record
    none. *)
Definition profile_from_options (options : dict) (w' : World) : Prop :=
  unicode_of (default (VStr "") (options !! "profile")) =
    Some (child_profile (self w')).

(** ** Definitions used to state further properties *)

(** The content of the dict at a reference. *)
Definition content (w : World) (d : loc) : dict := default ∅ (dicts w !! d).

(** The first catalog entry that carries the key [k]: where the loop of
    [select_profile] stops. *)
Fixpoint first_with_key (ps : list Profile) (k : string) : option Profile :=
  match ps with
  | [] => None
  | p :: rest =>
      if String.eqb (p1_key p) k then Some p else first_with_key rest k
  end.

(** [self] after [select_profile k]. *)
Definition selected (s : Self) (k : string) : Self :=
  match first_with_key (profiles s) k with
  | Some p => set_child_config (set_child_class s (p3_type p)) (p4_config p)
  | None => s
  end.

(** The profile key that [construct_child] reads from the user options:
    [''] when none is recorded, nothing when the [Unicode] trait refuses
    the value recorded. *)
Definition chosen_key (options : dict) : option string :=
  match options !! "profile" with
  | None => Some ""
  | Some v => unicode_of v
  end.

(** [self] after [ProfilesSpawner.clear_state] in a store that held [n]
    dicts: [child_state] and [child_config] name the two dicts created by
    the call. *)
Definition cleared (s : Self) (n : nat) : Self :=
  {| user_options := user_options s;
     child_class := child_class s;
     child_config := S n;
     child_state := n;
     child_spawner := None;
     profiles := profiles s;
     child_profile := "" |}.

(** The store after [self.child_config.update(state.get('child_conf', {}))]
    on a supervisor [s], where the call succeeds: the entries saved under
    ['child_conf'] are written into the dict that [child_config] names. *)
Definition merged_conf (w : World) (s : Self) (state : loc) : option (list dict) :=
  match content w state !! "child_conf" with
  | None => Some (dicts w)
  | Some (VDict o) =>
      Some (<[child_config s := content w o ∪ content w (child_config s)]> (dicts w))
  | Some (VStr "") | Some (VBytes "") => Some (dicts w)
  | Some _ => None
  end.

(** The dict that [load_state] binds [child_state] to, where the assignment
    succeeds: the one saved under ['child_state'], or a new one (the second
    of the two that [load_state] creates). *)
Definition loaded_child_state (w : World) (state : loc) : option loc :=
  match content w state !! "child_state" with
  | None => Some (S (length (dicts w)))
  | Some (VDict cs) => Some cs
  | Some _ => None
  end.

(** What [load_state] does between [load_child_class] and
    [construct_child] (lines 105-106). *)
Definition load_conf_and_state (state : loc) : Py unit :=
  let* s := get_self in
  let* empty := new_dict ∅ in
  let* conf := dict_get state "child_conf" (VDict empty) in
  dict_update (child_config s) conf >>
  let* empty := new_dict ∅ in
  let* st := dict_get state "child_state" (VDict empty) in
  let* st := as_Dict "child_state" st in
  assign (λ s, set_child_state s st).

(** [steady m]: whenever [m] returns, no child instance has been created
    or called, and [self] holds the child it held. *)
Definition steady {A} (m : Py A) : Prop :=
  ∀ w a w', m w = Returns a w' →
    objs w' = objs w ∧ child_spawner (self w') = child_spawner (self w).

(** Saving the state and loading it straight back into the same
    supervisor. *)
Definition save_and_reload `{Environment} : Py unit :=
  let* state := ProfilesSpawner.get_state in
  ProfilesSpawner.load_state state.

(** [clear_state] followed by [construct_child], on a plain
    [WrapSpawner]. *)
Definition clear_then_construct `{Environment} : Py (option loc) :=
  WrapSpawner.clear_state >> WrapSpawner.construct_child.

(** A new supervisor whose user chose [local], in a store that also holds
    a saved state (reference 3) with its config (4) and child state (5),
    and an empty mapping (6). *)
Definition saved_world : World :=
  {| dicts := [ProfilesSpawner.default_profile_config; ∅; ∅;
               {[ "profile" := VStr "local";
                  "child_conf" := VDict 4%nat;
                  "child_state" := VDict 5%nat ]};
               {[ "mem_limit" := VStr "4G" ]};
               {[ "pid" := VInt 77 ]};
               ∅];
     objs := [];
     self := fresh_self {[ "profile" := VStr "local" ]} |}.

(** A new supervisor over a catalog in which the key [local] occurs
    twice, the second time with another config dict. *)
Definition duplicate_key_world : World :=
  {| dicts := [ProfilesSpawner.default_profile_config; ∅; ∅];
     objs := [];
     self := {| user_options := ∅;
                child_class := SpawnerSubclass "DockerSpawner";
                child_config := 1%nat;
                child_state := 2%nat;
                child_spawner := None;
                profiles := [ProfilesSpawner.default_profile 0%nat;
                             ProfilesSpawner.default_profile 2%nat];
                child_profile := "" |} |}.

(** A supervisor whose user options record a profile that is not a
    string. *)
Definition bad_options_world : World :=
  fresh_world {[ "profile" := VInt 3 ]}.

(** A new supervisor whose user chose [local], over a catalog whose entry
    [local] configures [user], one of the keywords that [construct_child]
    gives by name. *)
Definition clash_world : World :=
  {| dicts := [<[ "user" := VStr "alice" ]> ProfilesSpawner.default_profile_config;
               ∅; ∅];
     objs := [];
     self := fresh_self {[ "profile" := VStr "local" ]} |}.

(** A supervisor whose user options record the profile as [bytes]. *)
Definition bytes_options_world : World :=
  fresh_world {[ "profile" := VBytes "local" ]}.

(** * Properties *)

(** ** select_profile *)

Section SelectProfile.
Context `{Environment}.

Lemma select_profile_loop_miss (ps : list Profile) (k : string) (w : World) :
  k ∉ p1_key <$> ps →
  ProfilesSpawner.select_profile_loop ps k w = Returns () w.
Proof.
  induction ps as [|p ps IH]; intros Hk;
    cbn [ProfilesSpawner.select_profile_loop]; [reflexivity|].
  rewrite fmap_cons, not_elem_of_cons in Hk. destruct Hk as [Hne Hk].
  destruct (String.eqb_spec (p1_key p) k) as [Heq|_]; [congruence|].
  apply IH, Hk.
Qed.

Lemma select_profile_loop_hit (ps : list Profile) (P : Profile) (w : World) :
  P ∈ ps →
  NoDup (p1_key <$> ps) →
  ProfilesSpawner.select_profile_loop ps (p1_key P) w =
    Returns () (with_self (set_child_config (set_child_class (self w) (p3_type P))
                                            (p4_config P)) w).
Proof.
  induction ps as [|p ps IH]; intros Hin Hnd; [by apply elem_of_nil in Hin|].
  rewrite fmap_cons, NoDup_cons in Hnd. destruct Hnd as [Hp Hnd].
  cbn [ProfilesSpawner.select_profile_loop].
  destruct (String.eqb_spec (p1_key p) (p1_key P)) as [Heq|Hne].
  - assert (P = p) as ->.
    { apply elem_of_cons in Hin as [->|Hin]; [reflexivity|].
      exfalso. apply Hp. rewrite Heq. by apply list_elem_of_fmap_2. }
    reflexivity.
  - apply elem_of_cons in Hin as [->|Hin]; [congruence|]. by apply IH.
Qed.

End SelectProfile.

(** C3.  Under the catalog invariant (keys are unique), selecting the key
    of a catalog entry [P] returns normally and leaves [child_class] equal
    to the class of [P] and [child_config] bound to the config dict of [P],
    whose content is what it was. *)
Theorem select_profile_sets_class_and_config (w : World) (P : Profile) :
  P ∈ profiles (self w) →
  NoDup (p1_key <$> profiles (self w)) →
  ∃ w', ProfilesSpawner.select_profile (p1_key P) w = Returns () w' ∧
        child_class (self w') = p3_type P ∧
        child_config (self w') = p4_config P ∧
        dicts w' = dicts w.
Proof.
  intros Hin Hnd. eexists. split.
  - unfold ProfilesSpawner.select_profile, bind, get_self.
    by apply select_profile_loop_hit.
  - by simpl.
Qed.

Lemma select_profile_sets_class_and_config_witness :
  ∃ w', ProfilesSpawner.select_profile "local" (fresh_world ∅) = Returns () w' ∧
        child_class (self w') = LocalProcessSpawner ∧
        child_config (self w') = 0%nat ∧
        dicts w' = dicts (fresh_world ∅).
Proof.
  apply (select_profile_sets_class_and_config
           (fresh_world ∅) (ProfilesSpawner.default_profile 0%nat)).
  - apply list_elem_of_here.
  - simpl. apply NoDup_singleton.
Defined.

(** C4.  Selecting a key that no catalog entry carries returns normally in
    the world it was called in: no field of the supervisor and no object of
    the store has changed. *)
Theorem select_profile_unknown_is_noop (w : World) (k : string) :
  k ∉ p1_key <$> profiles (self w) →
  ProfilesSpawner.select_profile k w = Returns () w.
Proof.
  intros Hk. unfold ProfilesSpawner.select_profile, bind, get_self.
  by apply select_profile_loop_miss.
Qed.

Lemma select_profile_unknown_is_noop_witness :
  ProfilesSpawner.select_profile "nonexistent" (fresh_world ∅)
  = Returns () (fresh_world ∅).
Proof.
  apply (select_profile_unknown_is_noop (fresh_world ∅) "nonexistent").
  simpl. intros Hin. apply list_elem_of_singleton in Hin. discriminate Hin.
Defined.

(** ** poll, progress *)

(** C7.  With no child instance, [poll] returns normally, changes nothing,
    and its result is a future already completed with the status [1],
    which is not [None]. *)
Theorem poll_without_child_not_running `{Environment} (w : World) :
  child_spawner (self w) = None →
  WrapSpawner.poll w = Returns (FutureDone (VInt 1)) w ∧ VInt 1 ≠ VNone.
Proof.
  intros Hnone. split; [|discriminate].
  unfold WrapSpawner.poll, bind, get_self. by rewrite Hnone.
Qed.

Lemma poll_without_child_not_running_witness :
  child_spawner (self (fresh_world ∅)) = None ∧
  @WrapSpawner.poll demo_env (fresh_world ∅)
  = Returns (FutureDone (VInt 1)) (fresh_world ∅) ∧ VInt 1 ≠ VNone.
Proof.
  split; [reflexivity|].
  apply (@poll_without_child_not_running demo_env (fresh_world ∅)).
  reflexivity.
Defined.

(** C8.  Where the base class offers [progress]: with no child instance the
    property raises [RuntimeError]; with a child instance it returns that
    child's progress stream and changes nothing. *)
Theorem progress_needs_child `{Environment} (w : World) :
  Spawner_has_progress = true →
  (child_spawner (self w) = None →
   WrapSpawner.progress w =
     Raises (RuntimeError "No child spawner yet exists - can not get progress yet"))
  ∧ (∀ c b, child_spawner (self w) = Some c → objs w !! c = Some b →
     WrapSpawner.progress w = Returns (child_progress b) w).
Proof.
  intros Hhas. unfold WrapSpawner.progress. rewrite Hhas.
  unfold bind, get_self. split.
  - intros ->. reflexivity.
  - intros c b -> Hb. unfold Child.progress, bind, get_obj, ret. by rewrite Hb.
Qed.


Lemma progress_needs_child_witness :
  @Spawner_has_progress demo_env = true ∧
  (child_spawner (self (fresh_world ∅)) = None ∧
   @WrapSpawner.progress demo_env (fresh_world ∅) =
     Raises (RuntimeError "No child spawner yet exists - can not get progress yet")) ∧
  (child_spawner (self built_world) = Some 0%nat ∧
   ∃ b, objs built_world !! 0%nat = Some b ∧
        @WrapSpawner.progress demo_env built_world
        = Returns (@child_progress demo_env b) built_world).
Proof.
  split; [reflexivity|]. split.
  - split; [reflexivity|].
    apply (@progress_needs_child demo_env (fresh_world ∅)); reflexivity.
  - split; [reflexivity|]. eexists. split; [reflexivity|].
    eapply (@progress_needs_child demo_env built_world); reflexivity.
Defined.

(** ** options_from_form *)

(** C9.  With a catalog whose first entry is [p]: form data without the
    field [profile] gives [{'profile': key of p}]; form data in which a
    value [v] was submitted for [profile] gives [{'profile': v}].  Nothing
    changes in either case. *)
Theorem options_from_form_default_and_choice
    (w : World) (formdata : gmap string (list string)) (p : Profile) :
  profiles (self w) !! 0%nat = Some p →
  (formdata !! "profile" = None →
   ProfilesSpawner.options_from_form formdata w
   = Returns {[ "profile" := VStr (p1_key p) ]} w)
  ∧ (∀ v vs, formdata !! "profile" = Some (v :: vs) →
     ProfilesSpawner.options_from_form formdata w
     = Returns {[ "profile" := VStr v ]} w).
Proof.
  intros Hp. unfold ProfilesSpawner.options_from_form, bind, get_self.
  rewrite Hp. unfold ret. split.
  - intros ->. reflexivity.
  - intros v vs ->. reflexivity.
Qed.

Lemma options_from_form_default_and_choice_witness :
  profiles (self (fresh_world ∅)) !! 0%nat
  = Some (ProfilesSpawner.default_profile 0%nat) ∧
  ProfilesSpawner.options_from_form ∅ (fresh_world ∅)
  = Returns {[ "profile" := VStr "local" ]} (fresh_world ∅) ∧
  ProfilesSpawner.options_from_form {[ "profile" := ["docker"; "local"] ]}
    (fresh_world ∅)
  = Returns {[ "profile" := VStr "docker" ]} (fresh_world ∅).
Proof.
  split; [reflexivity|]. split.
  - apply (options_from_form_default_and_choice (fresh_world ∅) ∅
             (ProfilesSpawner.default_profile 0%nat)); reflexivity.
  - apply (options_from_form_default_and_choice (fresh_world ∅)
             {[ "profile" := ["docker"; "local"] ]}
             (ProfilesSpawner.default_profile 0%nat) eq_refl)
      with (vs := ["local"]).
    reflexivity.
Defined.

(** C10.  Form data that carries the field [profile] with an empty list of
    values makes [options_from_form] raise [IndexError]; the first catalog
    entry is not used as a fallback. *)
Theorem options_from_form_empty_list_raises
    (w : World) (formdata : gmap string (list string)) :
  formdata !! "profile" = Some [] →
  ProfilesSpawner.options_from_form formdata w = Raises IndexError.
Proof.
  intros Hf. unfold ProfilesSpawner.options_from_form, bind, get_self.
  destruct (profiles (self w) !! 0%nat); [|reflexivity].
  unfold ret. rewrite Hf. reflexivity.
Qed.

Lemma options_from_form_empty_list_raises_witness :
  ({[ "profile" := [] ]} : gmap string (list string)) !! "profile" = Some [] ∧
  ProfilesSpawner.options_from_form {[ "profile" := [] ]} (fresh_world ∅)
  = Raises IndexError.
Proof.
  split; [reflexivity|].
  apply (options_from_form_empty_list_raises (fresh_world ∅) {[ "profile" := [] ]}).
  reflexivity.
Defined.

(** ** construct_child *)


Lemma dict_truthy_nonempty (m : dict) : dict_truthy m = true ↔ m ≠ ∅.
Proof.
  unfold dict_truthy. rewrite negb_true_iff, Nat.eqb_neq.
  by rewrite map_size_empty_iff.
Qed.

Lemma alter_last {A} (f : A → A) (l : list A) (x : A) :
  alter f (length l) (l ++ [x])%list = (l ++ [f x])%list.
Proof.
  replace (length l) with (length l + 0)%nat by lia.
  by rewrite alter_app_r.
Qed.

Lemma lookup_last {A} (l : list A) (x : A) :
  (l ++ [x])%list !! length l = Some x.
Proof. by rewrite lookup_app_r, Nat.sub_diag. Qed.

Section ConstructChild.
Context `{Environment}.


Lemma construct_child_existing (w : World) (c : loc) :
  child_spawner (self w) = Some c →
  WrapSpawner.construct_child w = Returns (Some c) w.
Proof.
  intros Hc. unfold WrapSpawner.construct_child, bind, get_self.
  rewrite Hc. destruct (decide (Some c = None)); [discriminate|].
  unfold ret. by rewrite Hc.
Qed.

Lemma construct_child_clash (w : World) (k : string) :
  child_spawner (self w) = None →
  repeated_keyword (default ∅ (dicts w !! child_config (self w))) = Some k →
  WrapSpawner.construct_child w = Raises TypeError.
Proof.
  intros Hc Hk. unfold WrapSpawner.construct_child, bind, get_self at 1.
  rewrite Hc. destruct (decide (None = None)); [|done].
  unfold deref at 1, Child.call. rewrite Hk. reflexivity.
Qed.

Lemma construct_child_new (w : World) :
  child_spawner (self w) = None →
  repeated_keyword (default ∅ (dicts w !! child_config (self w))) = None →
  WrapSpawner.construct_child w =
    Returns (Some (length (objs w)))
      {| dicts := dicts w;
         objs := objs w ++ [built_child (dicts w) (self w)];
         self := set_child_spawner (self w) (Some (length (objs w))) |}.
Proof.
  intros Hc Hk. unfold WrapSpawner.construct_child, bind, get_self at 1.
  rewrite Hc. destruct (decide (None = None)); [|done].
  unfold deref at 1, Child.call. rewrite Hk.
  unfold new_obj. unfold assign, bind, get_self, put_self.
  cbn [dicts objs self].
  unfold Child.clear_state, update_obj. cbn [dicts objs self].
  rewrite alter_last. unfold deref at 1. cbn [dicts objs self].
  unfold built_child.
  destruct (dict_truthy (default ∅ (dicts w !! child_state (self w)))).
  - unfold Child.load_state, bind, deref, update_obj. cbn [dicts objs self].
    rewrite alter_last.
    unfold Child.trait_names, bind, get_obj. cbn [dicts objs self].
    rewrite lookup_last. unfold ret. cbn [dicts objs self].
    rewrite alter_last. reflexivity.
  - unfold ret at 1.
    unfold Child.trait_names, bind, get_obj. cbn [dicts objs self].
    rewrite lookup_last. unfold ret, deref, update_obj. cbn [dicts objs self].
    rewrite alter_last. reflexivity.
Qed.

Lemma built_child_calls (ds : list dict) (s : Self) :
  cs_calls (built_child ds s) =
    CalledClearState ::
    (if decide (default ∅ (ds !! child_state s) = ∅) then []
     else [CalledLoadState (default ∅ (ds !! child_state s))]).
Proof.
  unfold built_child.
  destruct (decide (default ∅ (ds !! child_state s) = ∅)) as [He|Hne].
  - rewrite He. reflexivity.
  - apply dict_truthy_nonempty in Hne. rewrite Hne. reflexivity.
Qed.

Lemma built_child_state (ds : list dict) (s : Self) :
  cs_state (built_child ds s) = default ∅ (ds !! child_state s).
Proof.
  unfold built_child.
  destruct (dict_truthy (default ∅ (ds !! child_state s))) eqn:Ht; [reflexivity|].
  simpl. symmetry. apply map_size_empty_iff.
  unfold dict_truthy in Ht. apply negb_false_iff, Nat.eqb_eq in Ht. exact Ht.
Qed.

End ConstructChild.

(** C5.  Called without a child instance, [WrapSpawner.construct_child]
    first makes the call [child_class(..., **child_config)].  When
    [child_config] repeats none of the keywords that call gives by name,
    it builds an instance and returns it, and the calls that instance has
    received are [clear_state] first and then [load_state] with the content
    of [child_state], the latter exactly when that content is not empty.
    When [child_config] repeats one of them, the call raises [TypeError]:
    no instance is made and none receives any call.  Called with a child
    instance, it returns that instance in an unchanged world: no instance
    receives any call. *)
Theorem construct_child_clears_then_loads `{Environment} (w : World) :
  match child_spawner (self w) with
  | None =>
      match repeated_keyword (default ∅ (dicts w !! child_config (self w))) with
      | None =>
          ∃ w' b,
            WrapSpawner.construct_child w = Returns (Some (length (objs w))) w' ∧
            child_spawner (self w') = Some (length (objs w)) ∧
            objs w' = (objs w ++ [b])%list ∧
            cs_calls b =
              CalledClearState ::
              (if decide (default ∅ (dicts w !! child_state (self w)) = ∅) then []
               else [CalledLoadState (default ∅ (dicts w !! child_state (self w)))]) ∧
            cs_state b = default ∅ (dicts w !! child_state (self w))
      | Some _ => WrapSpawner.construct_child w = Raises TypeError
      end
  | Some c => WrapSpawner.construct_child w = Returns (Some c) w
  end.
Proof.
  destruct (child_spawner (self w)) as [c|] eqn:Hc.
  - by apply construct_child_existing.
  - destruct (repeated_keyword _) as [k|] eqn:Hk.
    + by eapply construct_child_clash.
    + eexists _, _. split; [by apply construct_child_new|].
      cbn [self objs]. split; [reflexivity|]. split; [reflexivity|].
      split; [apply built_child_calls | apply built_child_state].
Qed.

(** A call that returns is one of the two returning cases. *)
Lemma construct_child_returns `{Environment} (w w' : World) (r : option loc) :
  WrapSpawner.construct_child w = Returns r w' →
  (∃ c, child_spawner (self w) = Some c ∧ r = Some c ∧ w' = w) ∨
  (child_spawner (self w) = None ∧
   repeated_keyword (default ∅ (dicts w !! child_config (self w))) = None ∧
   r = Some (length (objs w)) ∧
   w' = {| dicts := dicts w;
           objs := objs w ++ [built_child (dicts w) (self w)];
           self := set_child_spawner (self w) (Some (length (objs w))) |}).
Proof.
  destruct (child_spawner (self w)) as [c|] eqn:Hc.
  - rewrite (construct_child_existing w c Hc).
    intros Heq. inversion Heq; subst. left. eauto.
  - destruct (repeated_keyword (default ∅ (dicts w !! child_config (self w))))
      as [k|] eqn:Hk.
    + by rewrite (construct_child_clash w k Hc Hk).
    + rewrite (construct_child_new w Hc Hk).
      intros Heq. inversion Heq; subst. right. eauto.
Qed.

(** Two calls in a row on a [WrapSpawner]: when the first returns, both
    return the same instance, and the second changes nothing. *)
Lemma WrapSpawner_construct_child_twice `{Environment}
    (w w1 : World) (r : option loc) :
  WrapSpawner.construct_child w = Returns r w1 →
  ∃ c, r = Some c ∧ WrapSpawner.construct_child w1 = Returns (Some c) w1.
Proof.
  intros Hrun.
  apply construct_child_returns in Hrun as [(c & Hc & -> & ->)|(Hc & _ & -> & ->)].
  - exists c. split; [reflexivity|]. by apply construct_child_existing.
  - eexists. split; [reflexivity|]. by apply construct_child_existing.
Qed.








(** ** What a method leaves alone *)


Lemma bind_returns {A B} (m : Py A) (k : A → Py B) (w w' : World) (b : B) :
  bind m k w = Returns b w' →
  ∃ a w1, m w = Returns a w1 ∧ k a w1 = Returns b w'.
Proof.
  unfold bind. destruct (m w) as [a w1|e]; [|discriminate]. eauto.
Qed.

Lemma as_Unicode_returns (trait : string) (v : value) (w w' : World) (k : string) :
  as_Unicode trait v w = Returns k w' → unicode_of v = Some k ∧ w' = w.
Proof.
  unfold as_Unicode. destruct (unicode_of v); [|discriminate].
  intros Heq. inversion Heq; subst. done.
Qed.

Lemma as_Unicode_run (trait : string) (v : value) (k : string) (w : World) :
  unicode_of v = Some k → as_Unicode trait v w = Returns k w.
Proof. unfold as_Unicode. by intros ->. Qed.

Ltac keeps_primitive :=
  let Hrun := fresh "Hrun" in
  intros ? ? ? Hrun; inversion Hrun; subst; clear Hrun; cbn [self].

Section Keeps.
Context {B : Type} (f : Self → B).

Lemma keeps_ret {A} (a : A) : keeps f (ret a).
Proof. intros w a' w' [= _ <-]. reflexivity. Qed.

Lemma keeps_raise {A} (e : Exn) : keeps f (@raise A e).
Proof. intros w a w' [=]. Qed.

Lemma keeps_bind {A C} (m : Py A) (k : A → Py C) :
  keeps f m → (∀ a, keeps f (k a)) → keeps f (bind m k).
Proof.
  intros Hm Hk w c w' Hrun.
  apply bind_returns in Hrun as (a & w1 & H1 & H2).
  rewrite (Hk _ _ _ _ H2). by eapply Hm.
Qed.

Lemma keeps_get_self : keeps f get_self.
Proof. keeps_primitive. reflexivity. Qed.

Lemma keeps_deref d : keeps f (deref d).
Proof. keeps_primitive. reflexivity. Qed.

Lemma keeps_store d m : keeps f (store d m).
Proof. keeps_primitive. reflexivity. Qed.

Lemma keeps_new_dict m : keeps f (new_dict m).
Proof. keeps_primitive. reflexivity. Qed.

Lemma keeps_new_obj b : keeps f (new_obj b).
Proof. keeps_primitive. reflexivity. Qed.

Lemma keeps_get_obj c : keeps f (get_obj c).
Proof.
  intros w a w'. unfold get_obj. destruct (objs w !! c); [|discriminate].
  revert w a w'. keeps_primitive. reflexivity.
Qed.

Lemma keeps_update_obj c g : keeps f (update_obj c g).
Proof. keeps_primitive. reflexivity. Qed.

Lemma keeps_assign (g : Self → Self) :
  (∀ s, f (g s) = f s) → keeps f (assign g).
Proof. intros Hg. keeps_primitive. apply Hg. Qed.

Lemma keeps_try_except_KeyError {A} (body handler : Py A) :
  keeps f body → keeps f handler → keeps f (try_except_KeyError body handler).
Proof.
  intros Hb Hh w a w'. unfold try_except_KeyError.
  destruct (body w) as [a1 w1|e] eqn:Hbody.
  - intros Heq. inversion Heq; subst. by eapply Hb.
  - destruct e; try discriminate. apply Hh.
Qed.

End Keeps.

Ltac keeps_step :=
  lazymatch goal with
  | |- keeps _ (bind _ _) => apply keeps_bind; [|intros ?]
  | |- keeps _ (ret _) => apply keeps_ret
  | |- keeps _ (raise _) => apply keeps_raise
  | |- keeps _ get_self => apply keeps_get_self
  | |- keeps _ (deref _) => apply keeps_deref
  | |- keeps _ (store _ _) => apply keeps_store
  | |- keeps _ (new_dict _) => apply keeps_new_dict
  | |- keeps _ (new_obj _) => apply keeps_new_obj
  | |- keeps _ (get_obj _) => apply keeps_get_obj
  | |- keeps _ (update_obj _ _) => apply keeps_update_obj
  | |- keeps _ (assign _) => apply keeps_assign; intros ?; reflexivity
  | |- keeps _ (try_except_KeyError _ _) => apply keeps_try_except_KeyError
  | |- keeps _ (match ?x with _ => _ end) => destruct x
  end.

Ltac keeps_auto := repeat keeps_step.

Section KeepsMethods.
Context `{Environment} {B : Type} (f : Self → B).

Lemma keeps_dict_get d key dflt : keeps f (dict_get d key dflt).
Proof. unfold dict_get. keeps_auto. Qed.

Lemma keeps_dict_getitem d key : keeps f (dict_getitem d key).
Proof. unfold dict_getitem. keeps_auto. Qed.

Lemma keeps_dict_setitem d key v : keeps f (dict_setitem d key v).
Proof. unfold dict_setitem. keeps_auto. Qed.

Lemma keeps_dict_update d other : keeps f (dict_update d other).
Proof. unfold dict_update. keeps_auto. Qed.

Lemma keeps_as_Dict trait v : keeps f (as_Dict trait v).
Proof. unfold as_Dict. keeps_auto. Qed.

Lemma keeps_as_Unicode trait v : keeps f (as_Unicode trait v).
Proof. unfold as_Unicode. keeps_auto. Qed.

Hypothesis f_child_class : ∀ s v, f (set_child_class s v) = f s.
Hypothesis f_child_config : ∀ s v, f (set_child_config s v) = f s.
Hypothesis f_child_spawner : ∀ s v, f (set_child_spawner s v) = f s.

Lemma keeps_select_profile k : keeps f (ProfilesSpawner.select_profile k).
Proof.
  unfold ProfilesSpawner.select_profile.
  apply keeps_bind; [apply keeps_get_self|]. intros s.
  induction (profiles s) as [|p ps IH];
    cbn [ProfilesSpawner.select_profile_loop]; [apply keeps_ret|].
  destruct (String.eqb (p1_key p) k); [|exact IH].
  apply keeps_bind; [|intros ?]; apply keeps_assign; intros ?;
    [apply f_child_class | apply f_child_config].
Qed.

Lemma keeps_WrapSpawner_construct_child : keeps f WrapSpawner.construct_child.
Proof.
  intros w r w' Hrun.
  apply construct_child_returns in Hrun as [(c & _ & _ & ->)|(_ & _ & _ & ->)].
  - reflexivity.
  - apply f_child_spawner.
Qed.

End KeepsMethods.

(** ** construct_child on a ProfilesSpawner *)

(** [ProfilesSpawner.construct_child] never hands out the instance. *)
Lemma ProfilesSpawner_construct_child_result `{Environment}
    (w w1 : World) (r : option loc) :
  ProfilesSpawner.construct_child w = Returns r w1 → r = None.
Proof.
  unfold ProfilesSpawner.construct_child, bind.
  repeat match goal with
         | |- context [match ?o with Returns _ _ => _ | Raises _ => _ end] =>
             destruct o
         end; unfold ret; congruence.
Qed.

(** [select_profile] always returns, and touches nothing but [self]. *)
Lemma select_profile_shape (k : string) (w : World) :
  ∃ s', ProfilesSpawner.select_profile k w = Returns () (with_self s' w).
Proof.
  unfold ProfilesSpawner.select_profile, bind, get_self.
  induction (profiles (self w)) as [|p ps IH];
    cbn [ProfilesSpawner.select_profile_loop].
  - exists (self w). by destruct w.
  - destruct (String.eqb (p1_key p) k); [|exact IH]. eexists. reflexivity.
Qed.

Section ConstructChildAgain.
Context `{Environment}.

Lemma WrapSpawner_construct_child_holds (w w' : World) (r : option loc) :
  WrapSpawner.construct_child w = Returns r w' →
  child_spawner (self w') = r ∧ is_Some r.
Proof.
  intros Hrun.
  apply construct_child_returns in Hrun as [(c & Hc & -> & ->)|(_ & _ & -> & ->)].
  - eauto.
  - cbn [self set_child_spawner child_spawner]. eauto.
Qed.

Lemma keeps_ProfilesSpawner_construct_child {B} (f : Self → B) :
  (∀ s v, f (set_child_class s v) = f s) →
  (∀ s v, f (set_child_config s v) = f s) →
  (∀ s v, f (set_child_spawner s v) = f s) →
  (∀ s v, f (set_child_profile s v) = f s) →
  keeps f ProfilesSpawner.construct_child.
Proof.
  intros Hcls Hcfg Hsp Hprof. unfold ProfilesSpawner.construct_child.
  apply keeps_bind; [apply keeps_get_self|]. intros s.
  apply keeps_bind; [apply keeps_as_Unicode|]. intros k.
  apply keeps_bind; [by apply keeps_assign|]. intros _.
  apply keeps_bind; [apply keeps_get_self|]. intros s'.
  apply keeps_bind; [by apply keeps_select_profile|]. intros _.
  apply keeps_bind; [by apply keeps_WrapSpawner_construct_child|]. intros _.
  apply keeps_ret.
Qed.

(** Once [ProfilesSpawner.construct_child] has returned, the supervisor
    holds a child, and a further call returns [None] again, holds the same
    child, and leaves every dict and every child instance as it was: no
    instance receives a call. *)
Lemma ProfilesSpawner_construct_child_again (w w1 : World) (r : option loc) :
  ProfilesSpawner.construct_child w = Returns r w1 →
  is_Some (child_spawner (self w1)) ∧
  ∃ w2, ProfilesSpawner.construct_child w1 = Returns None w2 ∧
        child_spawner (self w2) = child_spawner (self w1) ∧
        objs w2 = objs w1 ∧ dicts w2 = dicts w1.
Proof.
  intros Hrun.
  assert (user_options (self w1) = user_options (self w)) as Hopts.
  { by eapply (keeps_ProfilesSpawner_construct_child user_options). }
  pose proof Hrun as Hfirst. unfold ProfilesSpawner.construct_child in Hfirst.
  apply bind_returns in Hfirst as (s & wa & Hs & Hfirst).
  inversion Hs; subst; clear Hs.
  apply bind_returns in Hfirst as (k & wb & Hk & Hfirst).
  apply as_Unicode_returns in Hk as [Hprofile ->].
  apply bind_returns in Hfirst as (u & wc & _ & Hfirst).
  apply bind_returns in Hfirst as (s & wd & _ & Hfirst).
  apply bind_returns in Hfirst as (u' & we & _ & Hfirst).
  apply bind_returns in Hfirst as (r' & wf & Hwrap & Hret).
  inversion Hret; subst; clear Hret.
  apply WrapSpawner_construct_child_holds in Hwrap as [Hheld [c ->]].
  split; [by rewrite Hheld|].
  unfold ProfilesSpawner.construct_child, bind at 1, get_self at 1.
  rewrite Hopts. unfold bind at 1. rewrite (as_Unicode_run _ _ k _ Hprofile).
  unfold bind at 1, assign, bind at 1, get_self at 1, put_self.
  unfold bind at 1, get_self at 1. cbn [self set_child_profile child_profile].
  unfold bind at 1.
  destruct (select_profile_shape k
              {| dicts := dicts w1; objs := objs w1;
                 self := set_child_profile (self w1) k |}) as [s' Hsel].
  pose proof (keeps_select_profile child_spawner
                (λ _ _, eq_refl) (λ _ _, eq_refl) k _ _ _ Hsel) as Hsame.
  rewrite Hsel. cbn [with_self self set_child_profile child_spawner] in Hsame.
  unfold bind at 1.
  rewrite (construct_child_existing _ c) by (cbn [with_self self]; congruence).
  eexists. split; [reflexivity|]. cbn [with_self self objs dicts].
  split; [congruence|]. split; reflexivity.
Qed.

End ConstructChildAgain.

(** C2.  On a new [ProfilesSpawner] whose user chose [local], the first
    [construct_child] builds the child (reference 0, after [clear_state]
    only) and returns [None]; the second changes nothing and returns [None]
    again, not the instance it holds. *)
Theorem ProfilesSpawner_construct_child_returns_None :
  @ProfilesSpawner.construct_child demo_env
     (fresh_world {[ "profile" := VStr "local" ]}) = Returns None built_world ∧
  child_spawner (self built_world) = Some 0%nat ∧
  cs_calls <$> objs built_world = [[CalledClearState]] ∧
  @ProfilesSpawner.construct_child demo_env built_world = Returns None built_world.
Proof. vm_compute. repeat split; reflexivity. Qed.

(** ** Saving and loading state *)

Section ProfileFromOptions.
Context `{Environment}.

(** Whenever [ProfilesSpawner.construct_child] returns, [child_profile] is
    the profile recorded in [user_options], or [''] when none is. *)
Lemma ProfilesSpawner_construct_child_profile (w w' : World) (r : option loc) :
  ProfilesSpawner.construct_child w = Returns r w' →
  profile_from_options (user_options (self w)) w'.
Proof.
  unfold ProfilesSpawner.construct_child, profile_from_options. intros Hrun.
  apply bind_returns in Hrun as (s & w1 & Hs & Hrun).
  inversion Hs; subst; clear Hs.
  apply bind_returns in Hrun as (k & w2 & Hk & Hrun).
  apply as_Unicode_returns in Hk as [Hprofile ->].
  apply bind_returns in Hrun as ([] & w3 & Hset & Hrun).
  inversion Hset; subst; clear Hset.
  assert (keeps child_profile
            (let* s := get_self in
             ProfilesSpawner.select_profile (child_profile s) >>
             WrapSpawner.construct_child >> ret (@None loc))) as Hkeeps.
  { apply keeps_bind; [apply keeps_get_self|]. intros s.
    apply keeps_bind; [by apply keeps_select_profile|]. intros _.
    apply keeps_bind; [by apply keeps_WrapSpawner_construct_child|]. intros _.
    apply keeps_ret. }
  rewrite Hprofile. f_equal. symmetry. apply (Hkeeps _ _ _ Hrun).
Qed.

(** If everything [m] does keeps [user_options], a property of what
    follows that is stated in terms of [user_options] at its start holds of
    the whole. *)
Lemma after_keeping_user_options {A C} (m : Py A) (k : A → Py C)
    (Q : dict → World → Prop) :
  keeps user_options m →
  (∀ a w c w', k a w = Returns c w' → Q (user_options (self w)) w') →
  ∀ w c w', bind m k w = Returns c w' → Q (user_options (self w)) w'.
Proof.
  intros Hm Hk w c w' Hrun.
  apply bind_returns in Hrun as (a & w1 & H1 & H2).
  rewrite <- (Hm _ _ _ H1). by eapply Hk.
Qed.

Lemma keeps_load_child_class {B} (f : Self → B) (state : loc) :
  (∀ s v, f (set_child_class s v) = f s) →
  (∀ s v, f (set_child_config s v) = f s) →
  (∀ s v, f (set_child_profile s v) = f s) →
  keeps f (ProfilesSpawner.load_child_class state).
Proof.
  intros Hcls Hcfg Hprof. unfold ProfilesSpawner.load_child_class.
  apply keeps_bind.
  - apply keeps_try_except_KeyError.
    + apply keeps_bind; [apply keeps_dict_getitem|]. intros v.
      apply keeps_bind; [apply keeps_as_Unicode|]. intros k.
      by apply keeps_assign.
    + by apply keeps_assign.
  - intros _. apply keeps_bind; [apply keeps_get_self|]. intros s.
    by apply keeps_select_profile.
Qed.

(** Whenever [load_state] returns on a [ProfilesSpawner], [child_profile]
    is the profile recorded in [user_options], or [''] when none is:
    whatever the state carried under ['profile'] has been overwritten. *)
Lemma ProfilesSpawner_load_state_profile (state : loc) (w w' : World) (c : unit) :
  ProfilesSpawner.load_state state w = Returns c w' →
  profile_from_options (user_options (self w)) w'.
Proof.
  revert w c w'.
  unfold ProfilesSpawner.load_state, WrapSpawner.load_state.
  cbn [do_load_child_class do_construct_child ProfilesSpawner.methods].
  apply after_keeping_user_options; [apply keeps_ret|]. intros _.
  apply after_keeping_user_options; [by apply keeps_load_child_class|]. intros _.
  apply after_keeping_user_options; [apply keeps_get_self|]. intros s.
  apply after_keeping_user_options; [apply keeps_new_dict|]. intros e1.
  apply after_keeping_user_options; [apply keeps_dict_get|]. intros conf.
  apply after_keeping_user_options; [apply keeps_dict_update|]. intros _.
  apply after_keeping_user_options; [apply keeps_new_dict|]. intros e2.
  apply after_keeping_user_options; [apply keeps_dict_get|]. intros st.
  apply after_keeping_user_options; [apply keeps_as_Dict|]. intros st'.
  apply after_keeping_user_options; [by apply keeps_assign|]. intros _.
  intros w c w' Hrun.
  apply bind_returns in Hrun as (r & w1 & Hcc & Hret).
  inversion Hret; subst; clear Hret.
  by eapply ProfilesSpawner_construct_child_profile.
Qed.

End ProfileFromOptions.

(** C1.  The user of the first supervisor chose [local].  The state it
    saves carries ['profile': 'local']; the supervisor that loads it ends
    with the class and the config dict of the first one and a child built
    from them, but with [child_profile = ''] instead of ['local']. *)
Theorem load_state_loses_child_profile :
  ∃ state original restored w,
    @save_then_load demo_env (fresh_world {[ "profile" := VStr "local" ]})
    = Returns (state, original, restored) w ∧
    child_spawner original = Some 0%nat ∧
    child_profile original = "local" ∧
    dicts w !! state ≫= (.!! "profile") = Some (VStr "local") ∧
    child_profile restored = "" ∧
    child_class restored = child_class original ∧
    child_config restored = child_config original ∧
    child_spawner restored = Some 1%nat ∧
    cs_type <$> objs w !! 1%nat = Some (child_class original).
Proof. eexists _, _, _, _. vm_compute. repeat split; reflexivity. Qed.

(** After the second reload the class of the chosen profile is gone too:
    the third supervisor wraps the default class. *)
Lemma second_load_loses_child_class :
  ∃ original second third w,
    @save_then_load_twice demo_env docker_world
    = Returns (original, second, third) w ∧
    child_profile original = "docker" ∧
    child_class original = SpawnerSubclass "DockerSpawner" ∧
    child_profile second = "" ∧
    child_class second = SpawnerSubclass "DockerSpawner" ∧
    child_profile third = "" ∧
    child_class third = LocalProcessSpawner ∧
    cs_type <$> objs w = [SpawnerSubclass "DockerSpawner";
                          SpawnerSubclass "DockerSpawner";
                          LocalProcessSpawner].
Proof. eexists _, _, _, _. vm_compute. repeat split; reflexivity. Qed.

(** ** The catalog *)

(** [select_profile], [construct_child], [get_state] and [clear_state]
    leave the catalog and the content of every existing dict alone. *)

Ltac run_step :=
  unfold bind, ret, get_self, put_self, deref, store, new_dict, assign,
    update_obj, dict_setitem in *; cbn [dicts objs self] in *.

Ltac old_lookup :=
  repeat first
    [ rewrite list_lookup_insert_ne by lia
    | rewrite lookup_app_l
        by (rewrite ?length_insert, ?length_app, ?length_insert; simpl; lia) ].

Lemma get_state_keeps_catalog (w w' : World) (state : loc) :
  ProfilesSpawner.get_state w = Returns state w' → catalog_kept w w'.
Proof.
  unfold ProfilesSpawner.get_state, WrapSpawner.get_state, Spawner.get_state.
  run_step.
  destruct (child_spawner (self w)) as [c|].
  - unfold Child.get_state, get_obj. run_step.
    destruct (objs w !! c) as [b|]; [|discriminate].
    run_step.
    intros Heq. inversion Heq; subst; clear Heq.
    split; [reflexivity|]. intros l Hl. cbn [dicts]. by old_lookup.
  - run_step. intros Heq. inversion Heq; subst; clear Heq.
    split; [reflexivity|]. intros l Hl. cbn [dicts]. by old_lookup.
Qed.

Lemma clear_state_keeps_catalog (w w' : World) (u : unit) :
  ProfilesSpawner.clear_state w = Returns u w' → catalog_kept w w'.
Proof.
  unfold ProfilesSpawner.clear_state, WrapSpawner.clear_state, Spawner.clear_state.
  run_step.
  destruct (child_spawner (self w)) as [c|].
  - unfold Child.clear_state. run_step.
    intros Heq. inversion Heq; subst; clear Heq.
    split; [reflexivity|]. intros l Hl. cbn [dicts]. by old_lookup.
  - run_step. intros Heq. inversion Heq; subst; clear Heq.
    split; [reflexivity|]. intros l Hl. cbn [dicts]. by old_lookup.
Qed.

Lemma select_profile_keeps_catalog (k : string) (w w' : World) (u : unit) :
  ProfilesSpawner.select_profile k w = Returns u w' → catalog_kept w w'.
Proof.
  intros Hrun. split.
  - by eapply (keeps_select_profile profiles).
  - destruct (select_profile_shape k w) as [s' Hs]. rewrite Hs in Hrun.
    inversion Hrun; subst. reflexivity.
Qed.

Lemma construct_child_keeps_catalog `{Environment} (w w' : World) (r : option loc) :
  ProfilesSpawner.construct_child w = Returns r w' → catalog_kept w w'.
Proof.
  intros Hrun. split.
  - by eapply (keeps_ProfilesSpawner_construct_child profiles).
  - unfold ProfilesSpawner.construct_child in Hrun.
    apply bind_returns in Hrun as (s & wa & Hs & Hrun).
    inversion Hs; subst; clear Hs.
    apply bind_returns in Hrun as (k & wb & Hk & Hrun).
    apply as_Unicode_returns in Hk as [_ ->].
    apply bind_returns in Hrun as (u & wc & Hset & Hrun).
    inversion Hset; subst; clear Hset.
    apply bind_returns in Hrun as (s & wd & Hs & Hrun).
    inversion Hs; subst; clear Hs.
    apply bind_returns in Hrun as (u' & we & Hsel & Hrun).
    destruct (select_profile_shape (child_profile (set_child_profile (self wa) k))
                {| dicts := dicts wa; objs := objs wa;
                   self := set_child_profile (self wa) k |}) as [s' Hs].
    cbn [self] in Hsel. rewrite Hs in Hsel. inversion Hsel; subst; clear Hsel.
    apply bind_returns in Hrun as (r' & wf & Hwrap & Hret).
    inversion Hret; subst; clear Hret.
    intros l _.
    apply construct_child_returns in Hwrap as [(c & _ & _ & ->)|(_ & _ & _ & ->)];
      reflexivity.
Qed.

(** C6.  [load_state] writes into the catalog: before the call the config
    dict of the entry [local] holds the two timeouts, after the call the
    same entry of the same catalog list holds [mem_limit] as well. *)
Theorem load_state_writes_into_catalog :
  ∃ w,
    @load_older_state demo_env (fresh_world ∅) = Returns () w ∧
    profiles (self w) = profiles (self (fresh_world ∅)) ∧
    p4_config <$> profiles (self w) = [0%nat] ∧
    dicts (fresh_world ∅) !! 0%nat = Some ProfilesSpawner.default_profile_config ∧
    dicts w !! 0%nat
    = Some (<[ "mem_limit" := VStr "4G" ]> ProfilesSpawner.default_profile_config).
Proof. eexists. vm_compute. repeat split; reflexivity. Qed.

(** * Further properties *)

Ltac self_simpl :=
  cbn [self dicts objs with_self user_options child_class child_config
       child_state child_spawner profiles child_profile set_child_class
       set_child_config set_child_state set_child_spawner set_child_profile
       cleared] in *.

(** ** select_profile, in closed form *)

Lemma with_self_self (w : World) : with_self (self w) w = w.
Proof. by destruct w. Qed.

Lemma select_profile_run (k : string) (w : World) :
  ProfilesSpawner.select_profile k w
  = Returns () (with_self (selected (self w) k) w).
Proof.
  unfold ProfilesSpawner.select_profile, bind, get_self, selected.
  induction (profiles (self w)) as [|p ps IH];
    cbn [ProfilesSpawner.select_profile_loop first_with_key].
  - by rewrite with_self_self.
  - destruct (String.eqb (p1_key p) k); [reflexivity|exact IH].
Qed.

Lemma first_with_key_app (before after : list Profile) (P : Profile) :
  Forall (λ p, p1_key p ≠ p1_key P) before →
  first_with_key (before ++ P :: after) (p1_key P) = Some P.
Proof.
  induction 1 as [|p ps Hne _ IH]; cbn [app first_with_key].
  - by rewrite String.eqb_refl.
  - destruct (String.eqb_spec (p1_key p) (p1_key P)); [done|exact IH].
Qed.

Lemma first_with_key_miss (ps : list Profile) (k : string) :
  k ∉ p1_key <$> ps → first_with_key ps k = None.
Proof.
  induction ps as [|p ps IH]; [done|]. intros Hmiss.
  rewrite fmap_cons, not_elem_of_cons in Hmiss. destruct Hmiss as [Hne Hmiss].
  cbn [first_with_key].
  destruct (String.eqb_spec (p1_key p) k); [congruence|by apply IH].
Qed.

Lemma selected_frame (s : Self) (k : string) :
  user_options (selected s k) = user_options s ∧
  child_state (selected s k) = child_state s ∧
  child_spawner (selected s k) = child_spawner s ∧
  profiles (selected s k) = profiles s ∧
  child_profile (selected s k) = child_profile s.
Proof. unfold selected. by destruct (first_with_key (profiles s) k). Qed.

Lemma child_config_selected (s : Self) (k : string) :
  child_config (selected s k)
  = match first_with_key (profiles s) k with
    | Some P => p4_config P
    | None => child_config s
    end.
Proof. unfold selected. by destruct (first_with_key (profiles s) k). Qed.

Lemma selected_known (s : Self) (before after : list Profile) (P : Profile) :
  profiles s = (before ++ P :: after)%list →
  Forall (λ p, p1_key p ≠ p1_key P) before →
  selected s (p1_key P)
  = set_child_config (set_child_class s (p3_type P)) (p4_config P).
Proof.
  intros Hps Hbefore. unfold selected. by rewrite Hps, first_with_key_app.
Qed.

(** X1.  [select_profile] stops at the first entry that carries the key:
    entries after it, with the same key or not, play no part.  It sets
    [child_class] and [child_config] from that entry and nothing else:
    [child_profile], [child_state], the child and both stores are as they
    were. *)
Theorem select_profile_first_match_wins
    (w : World) (before after : list Profile) (P : Profile) :
  profiles (self w) = (before ++ P :: after)%list →
  Forall (λ p, p1_key p ≠ p1_key P) before →
  ∃ w', ProfilesSpawner.select_profile (p1_key P) w = Returns () w' ∧
        child_class (self w') = p3_type P ∧
        child_config (self w') = p4_config P ∧
        child_profile (self w') = child_profile (self w) ∧
        child_state (self w') = child_state (self w) ∧
        child_spawner (self w') = child_spawner (self w) ∧
        dicts w' = dicts w ∧ objs w' = objs w.
Proof.
  intros Hps Hbefore. eexists. split; [apply select_profile_run|].
  rewrite (selected_known _ before after P) by done. by cbn.
Qed.

Lemma select_profile_first_match_wins_witness :
  ∃ w', ProfilesSpawner.select_profile "local" duplicate_key_world
        = Returns () w' ∧
        child_class (self w') = LocalProcessSpawner ∧
        child_config (self w') = 0%nat ∧
        child_profile (self w') = "" ∧
        child_state (self w') = 2%nat ∧
        child_spawner (self w') = None ∧
        dicts w' = dicts duplicate_key_world ∧ objs w' = [].
Proof.
  exact (select_profile_first_match_wins duplicate_key_world []
           [ProfilesSpawner.default_profile 2%nat]
           (ProfilesSpawner.default_profile 0%nat)
           eq_refl (Forall_nil_2 _)).
Defined.

(** ** get_state *)

Lemma insert_last {A} (l : list A) (x y : A) :
  <[length l := y]> (l ++ [x])%list = (l ++ [y])%list.
Proof.
  replace (length l) with (length l + 0)%nat by lia.
  by rewrite insert_app_r.
Qed.

Lemma lookup_last2 {A} (l : list A) (x y : A) :
  (l ++ [x; y])%list !! length l = Some x.
Proof. by rewrite lookup_app_r, Nat.sub_diag. Qed.

Lemma insert_last2 {A} (l : list A) (x y z : A) :
  <[length l := z]> (l ++ [x; y])%list = (l ++ [z; y])%list.
Proof.
  replace (length l) with (length l + 0)%nat by lia.
  by rewrite insert_app_r.
Qed.

Lemma alter_valid {A} (f : A → A) (l : list A) (i : nat) (x : A) :
  l !! i = Some x → alter f i l = <[i := f x]> l.
Proof.
  intros Hx. apply list_eq. intros j.
  destruct (decide (j = i)) as [->|Hne].
  - rewrite list_lookup_alter_eq, Hx.
    rewrite list_lookup_insert_eq; [done|]. by eapply lookup_lt_Some.
  - by rewrite list_lookup_alter_ne, list_lookup_insert_ne.
Qed.

Ltac heap_last l :=
  unfold loc;
  repeat first
    [ rewrite (lookup_last l) | rewrite (insert_last l)
    | rewrite (lookup_last2 l) | rewrite (insert_last2 l)
    | progress cbn [default from_option id] ].

Lemma get_state_with_child_run (w : World) (c : loc) (b : ChildSpawner) :
  child_spawner (self w) = Some c →
  objs w !! c = Some b →
  ProfilesSpawner.get_state w
  = Returns (length (dicts w))
      {| dicts := dicts w ++
                  [ {[ "child_conf" := VDict (child_config (self w));
                       "child_state" := VDict (S (length (dicts w)));
                       "profile" := VStr (child_profile (self w)) ]};
                    cs_state b ];
         objs := alter (called CalledGetState) c (objs w);
         self := set_child_state (self w) (S (length (dicts w))) |}.
Proof.
  intros Hc Hb.
  unfold ProfilesSpawner.get_state, WrapSpawner.get_state, Spawner.get_state.
  run_step. rewrite Hc. unfold Child.get_state, get_obj. run_step.
  rewrite Hb. run_step. heap_last (dicts w).
  rewrite length_app. cbn [length]. rewrite Nat.add_1_r.
  rewrite <- (assoc_L (++)). cbn [app]. heap_last (dicts w).
  do 3 f_equal; apply map_eq; intros k;
    rewrite !lookup_insert; repeat case_decide; subst; done.
Qed.

(** X2.  Without a child, [get_state] returns a new dict that holds
    ['child_conf'] and ['profile'] and no ['child_state'].  The value under
    ['child_conf'] is the [child_config] dict itself, not a copy.  Nothing
    else changes. *)
Theorem get_state_without_child (w : World) :
  child_spawner (self w) = None →
  ProfilesSpawner.get_state w
  = Returns (length (dicts w))
      {| dicts := dicts w ++
                  [ {[ "child_conf" := VDict (child_config (self w));
                       "profile" := VStr (child_profile (self w)) ]} ];
         objs := objs w;
         self := self w |}.
Proof.
  intros Hnone.
  unfold ProfilesSpawner.get_state, WrapSpawner.get_state, Spawner.get_state.
  run_step. rewrite Hnone. run_step. heap_last (dicts w).
  do 3 f_equal; apply map_eq; intros k;
    rewrite !lookup_insert; repeat case_decide; subst; done.
Qed.

Lemma get_state_without_child_witness :
  child_spawner (self (fresh_world ∅)) = None ∧
  ProfilesSpawner.get_state (fresh_world ∅)
  = Returns 3%nat
      {| dicts := dicts (fresh_world ∅) ++
                  [ {[ "child_conf" := VDict 1%nat; "profile" := VStr "" ]} ];
         objs := [];
         self := fresh_self ∅ |}.
Proof.
  split; [reflexivity|].
  exact (get_state_without_child (fresh_world ∅) eq_refl).
Defined.

(** X3.  With a child, [get_state] asks the child for its state once and
    returns a new dict with the three keys ['child_conf'], ['child_state']
    and ['profile'].  The child's state sits in a second new dict, which
    is both the value under ['child_state'] and, from now on,
    [self.child_state].  The dicts that existed keep their content, and
    class, config, profile and child of the supervisor are unchanged. *)
Theorem get_state_saves_child_state (w : World) (c : loc) (b : ChildSpawner) :
  child_spawner (self w) = Some c →
  objs w !! c = Some b →
  ∃ w',
    ProfilesSpawner.get_state w = Returns (length (dicts w)) w' ∧
    content w' (length (dicts w))
    = {[ "child_conf" := VDict (child_config (self w));
         "child_state" := VDict (child_state (self w'));
         "profile" := VStr (child_profile (self w)) ]} ∧
    length (dicts w) < child_state (self w') ∧
    content w' (child_state (self w')) = cs_state b ∧
    objs w' = <[c := called CalledGetState b]> (objs w) ∧
    (∀ d, d < length (dicts w) → dicts w' !! d = dicts w !! d) ∧
    child_class (self w') = child_class (self w) ∧
    child_config (self w') = child_config (self w) ∧
    child_profile (self w') = child_profile (self w) ∧
    child_spawner (self w') = Some c.
Proof.
  intros Hc Hb. eexists. split; [by apply get_state_with_child_run|].
  unfold content. self_simpl. unfold loc in *.
  rewrite lookup_last2. split; [reflexivity|]. split; [lia|]. split.
  { rewrite lookup_app_r by lia.
    replace (S (length (dicts w)) - length (dicts w)) with 1 by lia. done. }
  split; [by apply alter_valid|]. split.
  { intros d Hd. by rewrite lookup_app_l. }
  by rewrite Hc.
Qed.

Lemma get_state_saves_child_state_witness :
  child_spawner (self built_world) = Some 0%nat ∧
  ∃ b, objs built_world !! 0%nat = Some b ∧
  ∃ w',
    ProfilesSpawner.get_state built_world = Returns 3%nat w' ∧
    content w' 3%nat
    = {[ "child_conf" := VDict 0%nat;
         "child_state" := VDict (child_state (self w'));
         "profile" := VStr "local" ]} ∧
    3 < child_state (self w') ∧
    content w' (child_state (self w')) = cs_state b ∧
    objs w' = <[0%nat := called CalledGetState b]> (objs built_world) ∧
    (∀ d, d < 3 → dicts w' !! d = dicts built_world !! d) ∧
    child_class (self w') = LocalProcessSpawner ∧
    child_config (self w') = 0%nat ∧
    child_profile (self w') = "local" ∧
    child_spawner (self w') = Some 0%nat.
Proof.
  split; [reflexivity|]. eexists. split; [reflexivity|].
  exact (get_state_saves_child_state built_world 0%nat _ eq_refl eq_refl).
Defined.

(** ** stop, poll, start *)

(** X4.  With no child, [stop] returns a future already completed with
    [None] and changes nothing, whatever [now] is. *)
Theorem stop_without_child_is_noop `{Environment} (w : World) (now : bool) :
  child_spawner (self w) = None →
  WrapSpawner.stop now w = Returns (FutureDone VNone) w.
Proof.
  intros Hnone. unfold WrapSpawner.stop, bind, get_self. by rewrite Hnone.
Qed.

Lemma stop_without_child_is_noop_witness :
  child_spawner (self (fresh_world ∅)) = None ∧
  @WrapSpawner.stop demo_env true (fresh_world ∅)
  = Returns (FutureDone VNone) (fresh_world ∅).
Proof.
  split; [reflexivity|].
  exact (@stop_without_child_is_noop demo_env (fresh_world ∅) true eq_refl).
Defined.

(** X5.  With a child, [stop] and [poll] hand back the child's own future:
    the child receives the one call ([stop] with the same [now]), and
    nothing else changes. *)
Theorem stop_and_poll_forward_to_child `{Environment}
    (w : World) (c : loc) (b : ChildSpawner) (now : bool) :
  child_spawner (self w) = Some c →
  objs w !! c = Some b →
  WrapSpawner.stop now w
  = Returns (child_stop b now)
      {| dicts := dicts w;
         objs := <[c := called (CalledStop now) b]> (objs w);
         self := self w |}
  ∧ WrapSpawner.poll w
  = Returns (child_poll b)
      {| dicts := dicts w;
         objs := <[c := called CalledPoll b]> (objs w);
         self := self w |}.
Proof.
  intros Hc Hb.
  unfold WrapSpawner.stop, WrapSpawner.poll, Child.stop, Child.poll,
    bind, get_self, get_obj, update_obj, ret.
  unfold loc in *. rewrite Hc, Hb. cbn [dicts objs self].
  by rewrite !(alter_valid _ _ _ _ Hb).
Qed.

Lemma stop_and_poll_forward_to_child_witness :
  child_spawner (self built_world) = Some 0%nat ∧
  ∃ b, objs built_world !! 0%nat = Some b ∧
  @WrapSpawner.stop demo_env false built_world
  = Returns (@child_stop demo_env b false)
      {| dicts := dicts built_world;
         objs := <[0%nat := called (CalledStop false) b]> (objs built_world);
         self := self built_world |}
  ∧ @WrapSpawner.poll demo_env built_world
  = Returns (@child_poll demo_env b)
      {| dicts := dicts built_world;
         objs := <[0%nat := called CalledPoll b]> (objs built_world);
         self := self built_world |}.
Proof.
  split; [reflexivity|]. eexists. split; [reflexivity|].
  exact (@stop_and_poll_forward_to_child demo_env built_world 0%nat _ false
           eq_refl eq_refl).
Defined.

(** X6.  [start] on a plain [WrapSpawner] without a child, whose
    [child_config] repeats none of the keywords that the constructor call
    gives by name, builds the child from [child_class] and the content of
    [child_config], and the child then receives, after [clear_state] (and
    [load_state], when [child_state] is not empty), [run_pre_spawn_hook]
    and [start], in that order.  The result is the future of the child's
    [start]. *)
Theorem WrapSpawner_start_builds_then_starts `{Environment} (w : World) :
  child_spawner (self w) = None →
  repeated_keyword (default ∅ (dicts w !! child_config (self w))) = None →
  ∃ w' b,
    WrapSpawner_start w
    = Returns (child_start (called CalledPreSpawnHook
                              (built_child (dicts w) (self w)))) w' ∧
    child_spawner (self w') = Some (length (objs w)) ∧
    objs w' = (objs w ++ [b])%list ∧
    cs_type b = child_class (self w) ∧
    cs_kwargs b = default ∅ (dicts w !! child_config (self w)) ∧
    cs_calls b =
      ((CalledClearState ::
        (if decide (default ∅ (dicts w !! child_state (self w)) = ∅) then []
         else [CalledLoadState (default ∅ (dicts w !! child_state (self w)))]))
       ++ [CalledPreSpawnHook; CalledStart])%list ∧
    dicts w' = dicts w.
Proof.
  intros Hnone Hkw.
  unfold WrapSpawner_start, WrapSpawner.start.
  cbn [do_construct_child WrapSpawner.methods].
  unfold bind at 1, get_self at 1. rewrite Hnone. cbn [obj_truthy negb].
  unfold bind at 1. unfold bind at 1. rewrite (construct_child_new w Hnone Hkw).
  unfold ret at 1. unfold bind at 1, get_self at 1.
  cbn [self set_child_spawner child_spawner].
  unfold Child.run_pre_spawn_hook, Child.start, bind, update_obj, get_obj, ret.
  cbn [dicts objs self]. rewrite !alter_last, lookup_last.
  cbn [dicts objs self]. rewrite alter_last.
  eexists _, _. split; [reflexivity|].
  cbn [self set_child_spawner child_spawner objs dicts].
  split; [reflexivity|]. split; [reflexivity|].
  split; [|split; [|split]].
  - unfold built_child. by destruct (dict_truthy _).
  - unfold built_child. by destruct (dict_truthy _).
  - cbn [called cs_calls]. rewrite built_child_calls.
    rewrite <- (assoc_L (++)). reflexivity.
  - reflexivity.
Qed.

Lemma WrapSpawner_start_builds_then_starts_witness :
  child_spawner (self (fresh_world ∅)) = None ∧
  repeated_keyword
    (default ∅ (dicts (fresh_world ∅) !! child_config (self (fresh_world ∅))))
  = None ∧
  ∃ w' b,
    @WrapSpawner_start demo_env (fresh_world ∅)
    = Returns (FutureDone (VStr "127.0.0.1")) w' ∧
    child_spawner (self w') = Some 0%nat ∧
    objs w' = [b] ∧
    cs_type b = LocalProcessSpawner ∧
    cs_kwargs b = ∅ ∧
    cs_calls b = [CalledClearState; CalledPreSpawnHook; CalledStart] ∧
    dicts w' = dicts (fresh_world ∅).
Proof.
  split; [reflexivity|]. split; [reflexivity|].
  exact (@WrapSpawner_start_builds_then_starts demo_env (fresh_world ∅)
           eq_refl eq_refl).
Defined.

(** X7.  [start] on a supervisor that holds a child, of either class, does
    not build and does not select: the child receives
    [run_pre_spawn_hook] and then [start], and [self] is unchanged, even
    when the user options now name another profile. *)
Theorem start_with_child_does_not_select `{Environment}
    (cls : Overridable) (w : World) (c : loc) (b : ChildSpawner) :
  child_spawner (self w) = Some c →
  objs w !! c = Some b →
  WrapSpawner.start cls w
  = Returns (child_start (called CalledPreSpawnHook b))
      {| dicts := dicts w;
         objs := <[c := called CalledStart (called CalledPreSpawnHook b)]> (objs w);
         self := self w |}.
Proof.
  intros Hc Hb. unfold WrapSpawner.start.
  unfold bind at 1, get_self at 1. rewrite Hc. cbn [obj_truthy negb].
  unfold bind at 1, ret at 1. unfold bind at 1, get_self at 1. rewrite Hc.
  unfold Child.run_pre_spawn_hook, Child.start, bind, update_obj, get_obj, ret.
  cbn [dicts objs self]. unfold loc in *.
  rewrite (alter_valid _ _ _ _ Hb).
  assert (<[c:=called CalledPreSpawnHook b]> (objs w) !! c
          = Some (called CalledPreSpawnHook b)) as Hhook.
  { apply list_lookup_insert_eq. by eapply lookup_lt_Some. }
  rewrite Hhook. cbn [dicts objs self].
  rewrite (alter_valid _ _ _ _ Hhook).
  by rewrite list_insert_insert_eq.
Qed.

Lemma start_with_child_does_not_select_witness :
  child_spawner (self built_world) = Some 0%nat ∧
  ∃ b, objs built_world !! 0%nat = Some b ∧
  @ProfilesSpawner.start demo_env built_world
  = Returns (@child_start demo_env (called CalledPreSpawnHook b))
      {| dicts := dicts built_world;
         objs := <[0%nat := called CalledStart (called CalledPreSpawnHook b)]>
                   (objs built_world);
         self := self built_world |}.
Proof.
  split; [reflexivity|]. eexists. split; [reflexivity|].
  exact (@start_with_child_does_not_select demo_env
           (@ProfilesSpawner.methods demo_env) built_world 0%nat _
           eq_refl eq_refl).
Defined.

(** ** clear_state *)

(** X8.  [ProfilesSpawner.clear_state] always returns.  Afterwards the
    supervisor holds no child, [child_profile] is [''], and [child_state]
    and [child_config] name two new, empty dicts; a child that was held has
    received [clear_state].  [child_class], [user_options] and the catalog
    are as they were, and no existing dict is written to. *)
Theorem clear_state_resets (w : World) :
  ProfilesSpawner.clear_state w
  = Returns ()
      {| dicts := dicts w ++ [∅; ∅];
         objs := match child_spawner (self w) with
                 | Some c => alter (λ b, called CalledClearState (with_state ∅ b))
                               c (objs w)
                 | None => objs w
                 end;
         self := cleared (self w) (length (dicts w)) |}.
Proof.
  unfold ProfilesSpawner.clear_state, WrapSpawner.clear_state, Spawner.clear_state.
  run_step.
  destruct (child_spawner (self w)) as [c|] eqn:Hc;
    unfold Child.clear_state; run_step;
    rewrite length_app, <- (assoc_L (++)); cbn [length app];
    rewrite Nat.add_1_r; reflexivity.
Qed.

(** ** construct_child on a ProfilesSpawner, in closed form *)

Lemma chosen_key_run (trait : string) (options : dict) (k : string) (w : World) :
  chosen_key options = Some k →
  as_Unicode trait (default (VStr "") (options !! "profile")) w = Returns k w.
Proof.
  unfold chosen_key. intros Hk. apply as_Unicode_run.
  destruct (options !! "profile"); [exact Hk|].
  cbn [default from_option id unicode_of]. exact Hk.
Qed.

Lemma ProfilesSpawner_construct_child_new `{Environment} (w : World) (k : string) :
  child_spawner (self w) = None →
  chosen_key (user_options (self w)) = Some k →
  repeated_keyword
    (default ∅ (dicts w !! child_config (selected (set_child_profile (self w) k) k)))
  = None →
  ProfilesSpawner.construct_child w
  = Returns None
      {| dicts := dicts w;
         objs := objs w ++
                 [built_child (dicts w) (selected (set_child_profile (self w) k) k)];
         self := set_child_spawner (selected (set_child_profile (self w) k) k)
                   (Some (length (objs w))) |}.
Proof.
  intros Hnone Hk Hkw. unfold ProfilesSpawner.construct_child.
  unfold bind at 1, get_self at 1.
  unfold bind at 1. rewrite (chosen_key_run _ _ k _ Hk).
  unfold bind at 1, assign, bind at 1, get_self at 1, put_self.
  unfold bind at 1, get_self at 1. cbn [self set_child_profile child_profile].
  unfold bind at 1. rewrite select_profile_run. cbn [with_self self].
  unfold bind at 1. rewrite construct_child_new.
  - reflexivity.
  - cbn [self with_self]. by rewrite (proj1 (proj2 (proj2 (selected_frame _ _)))).
  - cbn [self with_self dicts]. exact Hkw.
Qed.

Lemma ProfilesSpawner_construct_child_clash `{Environment}
    (w : World) (k kw : string) :
  child_spawner (self w) = None →
  chosen_key (user_options (self w)) = Some k →
  repeated_keyword
    (default ∅ (dicts w !! child_config (selected (set_child_profile (self w) k) k)))
  = Some kw →
  ProfilesSpawner.construct_child w = Raises TypeError.
Proof.
  intros Hnone Hk Hkw. unfold ProfilesSpawner.construct_child.
  unfold bind at 1, get_self at 1.
  unfold bind at 1. rewrite (chosen_key_run _ _ k _ Hk).
  unfold bind at 1, assign, bind at 1, get_self at 1, put_self.
  unfold bind at 1, get_self at 1. cbn [self set_child_profile child_profile].
  unfold bind at 1. rewrite select_profile_run. cbn [with_self self].
  unfold bind at 1. rewrite (construct_child_clash _ kw).
  - reflexivity.
  - cbn [self with_self]. by rewrite (proj1 (proj2 (proj2 (selected_frame _ _)))).
  - cbn [self with_self dicts]. exact Hkw.
Qed.

Lemma ProfilesSpawner_construct_child_existing `{Environment}
    (w : World) (c : loc) (k : string) :
  child_spawner (self w) = Some c →
  chosen_key (user_options (self w)) = Some k →
  ProfilesSpawner.construct_child w
  = Returns None (with_self (selected (set_child_profile (self w) k) k) w).
Proof.
  intros Hc Hk. unfold ProfilesSpawner.construct_child.
  unfold bind at 1, get_self at 1.
  unfold bind at 1. rewrite (chosen_key_run _ _ k _ Hk).
  unfold bind at 1, assign, bind at 1, get_self at 1, put_self.
  unfold bind at 1, get_self at 1. cbn [self set_child_profile child_profile].
  unfold bind at 1. rewrite select_profile_run. cbn [with_self self].
  unfold bind at 1. rewrite (construct_child_existing _ c).
  - reflexivity.
  - cbn [self with_self]. by rewrite (proj1 (proj2 (proj2 (selected_frame _ _)))).
Qed.

Lemma construct_child_returns_key `{Environment} (w w' : World) (r : option loc) :
  ProfilesSpawner.construct_child w = Returns r w' →
  ∃ k, chosen_key (user_options (self w)) = Some k.
Proof.
  unfold ProfilesSpawner.construct_child. intros Hrun.
  apply bind_returns in Hrun as (s & w1 & Hs & Hrun).
  inversion Hs; subst; clear Hs.
  apply bind_returns in Hrun as (k & w2 & Hk & _).
  apply as_Unicode_returns in Hk as [Hk _].
  exists k. unfold chosen_key.
  by destruct (user_options (self w1) !! "profile").
Qed.

(** X9.  When the user's choice names no catalog entry, the unknown key
    is no error: [construct_child] records the choice in [child_profile]
    and builds the child from the class and config that were in place
    before, provided that config repeats none of the keywords that the
    constructor call gives by name. *)
Theorem construct_child_unknown_profile_uses_prior `{Environment}
    (w : World) (k : string) :
  child_spawner (self w) = None →
  chosen_key (user_options (self w)) = Some k →
  k ∉ p1_key <$> profiles (self w) →
  repeated_keyword (default ∅ (dicts w !! child_config (self w))) = None →
  ∃ w' b,
    ProfilesSpawner.construct_child w = Returns None w' ∧
    child_spawner (self w') = Some (length (objs w)) ∧
    objs w' = (objs w ++ [b])%list ∧
    cs_type b = child_class (self w) ∧
    cs_kwargs b = default ∅ (dicts w !! child_config (self w)) ∧
    child_profile (self w') = k ∧
    child_class (self w') = child_class (self w) ∧
    child_config (self w') = child_config (self w) ∧
    dicts w' = dicts w.
Proof.
  intros Hnone Hk Hmiss Hkw.
  assert (selected (set_child_profile (self w) k) k = set_child_profile (self w) k)
    as Hsel.
  { unfold selected. cbn [profiles set_child_profile].
    by rewrite (first_with_key_miss _ _ Hmiss). }
  eexists _, _. split.
  { apply ProfilesSpawner_construct_child_new; [done..|]. by rewrite Hsel. }
  cbn [self objs dicts]. rewrite Hsel.
  split; [reflexivity|]. split; [reflexivity|].
  unfold built_child. cbn [child_class child_config child_state set_child_profile].
  repeat split; by destruct (dict_truthy _).
Qed.

Lemma construct_child_unknown_profile_uses_prior_witness :
  child_spawner (self (fresh_world {[ "profile" := VStr "docker" ]})) = None ∧
  repeated_keyword
    (default ∅ (dicts (fresh_world {[ "profile" := VStr "docker" ]}) !! 1%nat))
  = None ∧
  ∃ w' b,
    @ProfilesSpawner.construct_child demo_env
      (fresh_world {[ "profile" := VStr "docker" ]}) = Returns None w' ∧
    child_spawner (self w') = Some 0%nat ∧
    objs w' = [b] ∧
    cs_type b = LocalProcessSpawner ∧
    cs_kwargs b = ∅ ∧
    child_profile (self w') = "docker" ∧
    child_class (self w') = LocalProcessSpawner ∧
    child_config (self w') = 1%nat ∧
    dicts w' = dicts (fresh_world {[ "profile" := VStr "docker" ]}).
Proof.
  split; [reflexivity|]. split; [reflexivity|].
  refine (@construct_child_unknown_profile_uses_prior demo_env
            (fresh_world {[ "profile" := VStr "docker" ]}) "docker"
            eq_refl eq_refl _ eq_refl).
  simpl. intros Hin. apply list_elem_of_singleton in Hin. discriminate Hin.
Defined.

(** X10.  When the user's choice is the key of a catalog entry whose
    config dict repeats none of the keywords that the constructor call
    gives by name, [construct_child] builds the child from the class of the
    first such entry, with the content of that entry's config dict as
    keyword arguments, and leaves [child_class] and [child_config] set to
    them. *)
Theorem construct_child_known_profile_uses_entry `{Environment}
    (w : World) (before after : list Profile) (P : Profile) :
  child_spawner (self w) = None →
  chosen_key (user_options (self w)) = Some (p1_key P) →
  profiles (self w) = (before ++ P :: after)%list →
  Forall (λ p, p1_key p ≠ p1_key P) before →
  repeated_keyword (default ∅ (dicts w !! p4_config P)) = None →
  ∃ w' b,
    ProfilesSpawner.construct_child w = Returns None w' ∧
    child_spawner (self w') = Some (length (objs w)) ∧
    objs w' = (objs w ++ [b])%list ∧
    cs_type b = p3_type P ∧
    cs_kwargs b = default ∅ (dicts w !! p4_config P) ∧
    child_profile (self w') = p1_key P ∧
    child_class (self w') = p3_type P ∧
    child_config (self w') = p4_config P ∧
    dicts w' = dicts w.
Proof.
  intros Hnone Hk Hps Hbefore Hkw.
  eexists _, _. split.
  { apply ProfilesSpawner_construct_child_new; [done..|].
    by rewrite (selected_known _ before after P). }
  cbn [self objs dicts].
  rewrite (selected_known _ before after P) by done.
  split; [reflexivity|]. split; [reflexivity|].
  unfold built_child. self_simpl.
  repeat split; by destruct (dict_truthy _).
Qed.

Lemma construct_child_known_profile_uses_entry_witness :
  child_spawner (self (fresh_world {[ "profile" := VStr "local" ]})) = None ∧
  repeated_keyword
    (default ∅ (dicts (fresh_world {[ "profile" := VStr "local" ]}) !! 0%nat))
  = None ∧
  ∃ w' b,
    @ProfilesSpawner.construct_child demo_env
      (fresh_world {[ "profile" := VStr "local" ]}) = Returns None w' ∧
    child_spawner (self w') = Some 0%nat ∧
    objs w' = [b] ∧
    cs_type b = LocalProcessSpawner ∧
    cs_kwargs b = ProfilesSpawner.default_profile_config ∧
    child_profile (self w') = "local" ∧
    child_class (self w') = LocalProcessSpawner ∧
    child_config (self w') = 0%nat ∧
    dicts w' = dicts (fresh_world {[ "profile" := VStr "local" ]}).
Proof.
  split; [reflexivity|]. split; [reflexivity|].
  exact (@construct_child_known_profile_uses_entry demo_env
           (fresh_world {[ "profile" := VStr "local" ]}) [] []
           (ProfilesSpawner.default_profile 0%nat)
           eq_refl eq_refl eq_refl (Forall_nil_2 _) eq_refl).
Defined.

(** X11.  [start] on a [ProfilesSpawner] without a child selects the
    profile the user chose, builds the child from the first catalog entry
    with that key, and starts it: the child's last two calls are
    [run_pre_spawn_hook] and [start].  The entry's config dict repeats none
    of the keywords that the constructor call gives by name. *)
Theorem ProfilesSpawner_start_builds_chosen_profile `{Environment}
    (w : World) (before after : list Profile) (P : Profile) :
  child_spawner (self w) = None →
  chosen_key (user_options (self w)) = Some (p1_key P) →
  profiles (self w) = (before ++ P :: after)%list →
  Forall (λ p, p1_key p ≠ p1_key P) before →
  repeated_keyword (default ∅ (dicts w !! p4_config P)) = None →
  ∃ w' b f calls,
    ProfilesSpawner.start w = Returns f w' ∧
    child_spawner (self w') = Some (length (objs w)) ∧
    objs w' = (objs w ++ [b])%list ∧
    cs_type b = p3_type P ∧
    cs_kwargs b = default ∅ (dicts w !! p4_config P) ∧
    cs_calls b = (CalledClearState :: calls ++ [CalledPreSpawnHook; CalledStart])%list ∧
    child_profile (self w') = p1_key P ∧
    dicts w' = dicts w.
Proof.
  intros Hnone Hk Hps Hbefore Hkw.
  unfold ProfilesSpawner.start, WrapSpawner.start.
  cbn [do_construct_child ProfilesSpawner.methods].
  unfold bind at 1, get_self at 1. rewrite Hnone. cbn [obj_truthy negb].
  unfold bind at 1. unfold bind at 1.
  rewrite (ProfilesSpawner_construct_child_new w (p1_key P) Hnone Hk)
    by (by rewrite (selected_known _ before after P)).
  rewrite (selected_known _ before after P) by done.
  unfold ret at 1. unfold bind at 1, get_self at 1. self_simpl.
  unfold Child.run_pre_spawn_hook, Child.start, bind, update_obj, get_obj, ret.
  cbn [dicts objs self]. rewrite !alter_last, lookup_last.
  cbn [dicts objs self]. rewrite alter_last.
  eexists _, _, _, _. split; [reflexivity|]. self_simpl.
  split; [reflexivity|]. split; [reflexivity|].
  split; [|split; [|split]].
  - unfold built_child. by destruct (dict_truthy _).
  - unfold built_child. self_simpl. by destruct (dict_truthy _).
  - cbn [called cs_calls]. rewrite built_child_calls.
    rewrite <- (assoc_L (++)). reflexivity.
  - done.
Qed.

Lemma ProfilesSpawner_start_builds_chosen_profile_witness :
  child_spawner (self (fresh_world {[ "profile" := VStr "local" ]})) = None ∧
  repeated_keyword
    (default ∅ (dicts (fresh_world {[ "profile" := VStr "local" ]}) !! 0%nat))
  = None ∧
  ∃ w' b f calls,
    @ProfilesSpawner.start demo_env
      (fresh_world {[ "profile" := VStr "local" ]}) = Returns f w' ∧
    child_spawner (self w') = Some 0%nat ∧
    objs w' = [b] ∧
    cs_type b = LocalProcessSpawner ∧
    cs_kwargs b = ProfilesSpawner.default_profile_config ∧
    cs_calls b = (CalledClearState :: calls ++ [CalledPreSpawnHook; CalledStart])%list ∧
    child_profile (self w') = "local" ∧
    dicts w' = dicts (fresh_world {[ "profile" := VStr "local" ]}).
Proof.
  split; [reflexivity|]. split; [reflexivity|].
  exact (@ProfilesSpawner_start_builds_chosen_profile demo_env
           (fresh_world {[ "profile" := VStr "local" ]}) [] []
           (ProfilesSpawner.default_profile 0%nat)
           eq_refl eq_refl eq_refl (Forall_nil_2 _) eq_refl).
Defined.

(** X12.  A value under ['profile'] in the user options that is neither a
    string nor [bytes] that are all ASCII makes [construct_child] raise
    [TraitError] for [child_profile], and with it [start] on a supervisor
    without a child.  ([bytes] that are all ASCII are decoded by the
    [Unicode] trait and accepted.) *)
Theorem construct_child_rejects_non_string_profile `{Environment}
    (w : World) (v : value) :
  user_options (self w) !! "profile" = Some v →
  (∀ k, v ≠ VStr k) →
  (∀ b, v = VBytes b → is_ascii b = false) →
  ProfilesSpawner.construct_child w = Raises (TraitError "child_profile")
  ∧ (child_spawner (self w) = None →
     ProfilesSpawner.start w = Raises (TraitError "child_profile")).
Proof.
  intros Hv Hnot Hbytes.
  assert (ProfilesSpawner.construct_child w = Raises (TraitError "child_profile"))
    as Hcc.
  { unfold ProfilesSpawner.construct_child, bind at 1, get_self at 1.
    rewrite Hv. cbn [default from_option id]. unfold bind at 1, as_Unicode.
    destruct v as [| |k|d|b]; try reflexivity; [by destruct (Hnot k)|].
    cbn [unicode_of]. by rewrite (Hbytes b eq_refl). }
  split; [exact Hcc|]. intros Hc.
  unfold ProfilesSpawner.start, WrapSpawner.start.
  cbn [do_construct_child ProfilesSpawner.methods].
  unfold bind at 1, get_self at 1. rewrite Hc. cbn [obj_truthy negb].
  unfold bind at 1, bind at 1. by rewrite Hcc.
Qed.

Lemma construct_child_rejects_non_string_profile_witness :
  user_options (self bad_options_world) !! "profile" = Some (VInt 3) ∧
  @ProfilesSpawner.construct_child demo_env bad_options_world
  = Raises (TraitError "child_profile")
  ∧ (child_spawner (self bad_options_world) = None →
     @ProfilesSpawner.start demo_env bad_options_world
     = Raises (TraitError "child_profile")).
Proof.
  split; [reflexivity|].
  refine (@construct_child_rejects_non_string_profile demo_env
            bad_options_world (VInt 3) eq_refl _ _).
  - intros k Heq. discriminate Heq.
  - intros b Heq. discriminate Heq.
Defined.

(** ** The call of the child class *)

Lemma repeated_keyword_found (m : dict) (kw : string) :
  kw ∈ explicit_keywords → is_Some (m !! kw) → is_Some (repeated_keyword m).
Proof.
  intros Hin [v Hv]. unfold repeated_keyword.
  destruct (find _ explicit_keywords) as [k|] eqn:Hfind; [by eexists|].
  apply list_elem_of_In in Hin.
  pose proof (find_none _ _ Hfind kw Hin) as Hno. cbn beta in Hno.
  by rewrite Hv in Hno.
Qed.

(** X24.  A catalog entry whose config dict has one of the keys [user],
    [db], [hub], [authenticator], [oauth_client_id], [server], [config]
    cannot be spawned: the call of the child class gives that keyword
    twice, so [construct_child] on a [ProfilesSpawner] without a child
    whose user chose that entry raises [TypeError], and [start] with it. *)
Theorem construct_child_repeated_keyword_raises `{Environment}
    (w : World) (before after : list Profile) (P : Profile) (kw : string) :
  child_spawner (self w) = None →
  chosen_key (user_options (self w)) = Some (p1_key P) →
  profiles (self w) = (before ++ P :: after)%list →
  Forall (λ p, p1_key p ≠ p1_key P) before →
  kw ∈ explicit_keywords →
  is_Some (content w (p4_config P) !! kw) →
  ProfilesSpawner.construct_child w = Raises TypeError ∧
  ProfilesSpawner.start w = Raises TypeError.
Proof.
  intros Hnone Hk Hps Hbefore Hin Hkw.
  destruct (repeated_keyword_found _ _ Hin Hkw) as [k' Hrep].
  assert (ProfilesSpawner.construct_child w = Raises TypeError) as Hcc.
  { apply (ProfilesSpawner_construct_child_clash w (p1_key P) k' Hnone Hk).
    by rewrite (selected_known _ before after P). }
  split; [exact Hcc|].
  unfold ProfilesSpawner.start, WrapSpawner.start.
  cbn [do_construct_child ProfilesSpawner.methods].
  unfold bind at 1, get_self at 1. rewrite Hnone. cbn [obj_truthy negb].
  unfold bind at 1, bind at 1. by rewrite Hcc.
Qed.

Lemma construct_child_repeated_keyword_raises_witness :
  child_spawner (self clash_world) = None ∧
  content clash_world 0%nat !! "user" = Some (VStr "alice") ∧
  @ProfilesSpawner.construct_child demo_env clash_world = Raises TypeError ∧
  @ProfilesSpawner.start demo_env clash_world = Raises TypeError.
Proof.
  split; [reflexivity|]. split; [reflexivity|].
  refine (@construct_child_repeated_keyword_raises demo_env clash_world [] []
            (ProfilesSpawner.default_profile 0%nat) "user"
            eq_refl eq_refl eq_refl (Forall_nil_2 _) _ _).
  - unfold explicit_keywords. apply list_elem_of_here.
  - by eexists.
Defined.

(** X25.  A choice recorded as [bytes] that are all ASCII is decoded by
    the [child_profile] trait: [construct_child] selects the catalog entry
    whose key is the decoded text and builds the child of its class, as it
    does for the same choice recorded as a string. *)
Theorem construct_child_decodes_bytes_profile `{Environment}
    (w : World) (before after : list Profile) (P : Profile) :
  child_spawner (self w) = None →
  user_options (self w) !! "profile" = Some (VBytes (p1_key P)) →
  is_ascii (p1_key P) = true →
  profiles (self w) = (before ++ P :: after)%list →
  Forall (λ p, p1_key p ≠ p1_key P) before →
  repeated_keyword (content w (p4_config P)) = None →
  ∃ w' b,
    ProfilesSpawner.construct_child w = Returns None w' ∧
    child_profile (self w') = p1_key P ∧
    child_class (self w') = p3_type P ∧
    child_config (self w') = p4_config P ∧
    objs w' = (objs w ++ [b])%list ∧
    cs_type b = p3_type P ∧
    cs_kwargs b = content w (p4_config P).
Proof.
  intros Hnone Hopt Hascii Hps Hbefore Hrep.
  assert (chosen_key (user_options (self w)) = Some (p1_key P)) as Hk.
  { unfold chosen_key. rewrite Hopt. cbn [unicode_of]. by rewrite Hascii. }
  eexists _, _. split.
  { apply (ProfilesSpawner_construct_child_new w (p1_key P) Hnone Hk).
    by rewrite (selected_known _ before after P). }
  cbn [self objs dicts].
  rewrite (selected_known _ before after P) by done.
  unfold built_child, content. self_simpl.
  repeat split; by destruct (dict_truthy _).
Qed.

Lemma construct_child_decodes_bytes_profile_witness :
  child_spawner (self bytes_options_world) = None ∧
  user_options (self bytes_options_world) !! "profile" = Some (VBytes "local") ∧
  is_ascii "local" = true ∧
  repeated_keyword (content bytes_options_world 0%nat) = None ∧
  ∃ w' b,
    @ProfilesSpawner.construct_child demo_env bytes_options_world
    = Returns None w' ∧
    child_profile (self w') = "local" ∧
    child_class (self w') = LocalProcessSpawner ∧
    child_config (self w') = 0%nat ∧
    objs w' = [b] ∧
    cs_type b = LocalProcessSpawner ∧
    cs_kwargs b = ProfilesSpawner.default_profile_config.
Proof.
  split; [reflexivity|]. split; [reflexivity|]. split; [reflexivity|].
  split; [reflexivity|].
  exact (@construct_child_decodes_bytes_profile demo_env bytes_options_world
           [] [] (ProfilesSpawner.default_profile 0%nat)
           eq_refl eq_refl eq_refl eq_refl (Forall_nil_2 _) eq_refl).
Defined.

(** ** load_state, in closed form *)

Lemma default_lookup_app_empty (l : list dict) (i : nat) :
  default ∅ ((l ++ [∅])%list !! i) = default ∅ (l !! i).
Proof.
  destruct (decide (i < length l)) as [Hlt|Hge].
  - by rewrite lookup_app_l.
  - rewrite (lookup_ge_None_2 l i) by lia.
    destruct (decide (i = length l)) as [->|Hne].
    + by rewrite lookup_last.
    + rewrite lookup_ge_None_2; [done|]. rewrite length_app. simpl. lia.
Qed.

Lemma default_lookup_app_empty2 (l : list dict) (i : nat) :
  default ∅ ((l ++ [∅; ∅])%list !! i) = default ∅ (l !! i).
Proof.
  change [∅; ∅] with ([∅] ++ [∅] : list dict)%list.
  rewrite (assoc_L (++)). by rewrite !default_lookup_app_empty.
Qed.

Lemma insert_default_id (l : list dict) (i : nat) :
  <[i := default ∅ (l !! i)]> l = l.
Proof.
  apply list_insert_id'. intros Hlt.
  destruct (lookup_lt_is_Some_2 l i Hlt) as [x Hx]. by rewrite Hx.
Qed.

Lemma load_state_split (cls : Overridable) (state : loc) (w : World) :
  WrapSpawner.load_state cls state w
  = (do_load_child_class cls state >>
     load_conf_and_state state >>
     do_construct_child cls >> ret ()) w.
Proof.
  unfold WrapSpawner.load_state, load_conf_and_state, Spawner.load_state.
  unfold bind, ret. destruct (do_load_child_class cls state w) as [[] w1|e]; [|done].
  unfold get_self, new_dict. cbn [dicts objs self].
  repeat match goal with
         | |- context [match ?o with Returns _ _ => _ | Raises _ => _ end] =>
             lazymatch o with
             | do_construct_child _ _ => fail
             | _ => destruct o; try reflexivity
             end
         end.
Qed.

Lemma load_conf_and_state_run (state : loc) (w : World) (ds : list dict) (r : loc) :
  child_config (self w) < length (dicts w) →
  state ≠ child_config (self w) →
  merged_conf w (self w) state = Some ds →
  loaded_child_state w state = Some r →
  load_conf_and_state state w
  = Returns () {| dicts := ds ++ [∅; ∅]; objs := objs w;
                  self := set_child_state (self w) r |}.
Proof.
  intros Hvalid Hne Hconf Hstate.
  unfold merged_conf, loaded_child_state, content in *.
  unfold load_conf_and_state, dict_get.
  run_step; unfold loc in *. unfold loc in *. rewrite default_lookup_app_empty.
  assert (∀ (d : dict) i, i ≠ child_config (self w) →
            default ∅ ((<[child_config (self w) := d]> (dicts w ++ [∅]) ++ [∅])%list !! i)
            = default ∅ (dicts w !! i)) as Hother.
  { intros d i Hi. rewrite default_lookup_app_empty.
    rewrite list_lookup_insert_ne by done. apply default_lookup_app_empty. }
  assert (∀ d : dict,
            (<[child_config (self w) := d]> (dicts w ++ [∅]) ++ [∅])%list
            = (<[child_config (self w) := d]> (dicts w) ++ [∅; ∅])%list) as Hshape.
  { intros d. rewrite insert_app_l by done. by rewrite <- (assoc_L (++)). }
  destruct (default ∅ (dicts w !! state) !! "child_conf") as [conf|] eqn:Hc;
    cbn [default from_option id dict_update].
  - destruct conf as [| |k|o|k]; try discriminate Hconf.
    + destruct k as [|a k]; [|discriminate Hconf].
      injection Hconf as <-. unfold dict_update. run_step; unfold loc in *.
      rewrite default_lookup_app_empty, default_lookup_app_empty.
      destruct (default ∅ (dicts w !! state) !! "child_state") as [stv|];
        cbn [default from_option id as_Dict].
      * destruct stv; try discriminate Hstate. injection Hstate as <-.
        run_step; unfold loc in *. by rewrite <- (assoc_L (++)).
      * injection Hstate as <-. run_step; unfold loc in *.
        rewrite length_app. cbn [length]. rewrite Nat.add_1_r.
        by rewrite <- (assoc_L (++)).
    + injection Hconf as <-. unfold dict_update. run_step; unfold loc in *.
      rewrite (Hother _ state Hne), Hshape.
      rewrite !default_lookup_app_empty.
      destruct (default ∅ (dicts w !! state) !! "child_state") as [stv|];
        cbn [default from_option id as_Dict].
      * destruct stv; try discriminate Hstate. injection Hstate as <-.
        run_step; unfold loc in *; done.
      * injection Hstate as <-. run_step; unfold loc in *.
        rewrite length_insert, length_app. cbn [length]. by rewrite Nat.add_1_r.
    + destruct k as [|a k]; [|discriminate Hconf].
      injection Hconf as <-. unfold dict_update. run_step; unfold loc in *.
      rewrite default_lookup_app_empty, default_lookup_app_empty.
      destruct (default ∅ (dicts w !! state) !! "child_state") as [stv|];
        cbn [default from_option id as_Dict].
      * destruct stv; try discriminate Hstate. injection Hstate as <-.
        run_step; unfold loc in *. by rewrite <- (assoc_L (++)).
      * injection Hstate as <-. run_step; unfold loc in *.
        rewrite length_app. cbn [length]. rewrite Nat.add_1_r.
        by rewrite <- (assoc_L (++)).
  - injection Hconf as <-. unfold dict_update. run_step; unfold loc in *.
    rewrite lookup_last. cbn [default from_option id].
    rewrite default_lookup_app_empty, (left_id_L ∅ (∪)).
    rewrite <- (default_lookup_app_empty (dicts w) (child_config (self w))).
    rewrite insert_default_id. rewrite !default_lookup_app_empty.
    destruct (default ∅ (dicts w !! state) !! "child_state") as [stv|];
      cbn [default from_option id as_Dict].
    + destruct stv; try discriminate Hstate. injection Hstate as <-.
      run_step; unfold loc in *. by rewrite <- (assoc_L (++)).
    + injection Hstate as <-. run_step; unfold loc in *.
      rewrite length_app. cbn [length]. rewrite Nat.add_1_r.
      by rewrite <- (assoc_L (++)).
Qed.

Lemma load_child_class_run (state : loc) (w : World) (k : string) :
  content w state !! "profile" = Some (VStr k) ∨
  (content w state !! "profile" = None ∧ k = "") →
  ProfilesSpawner.load_child_class state w
  = Returns () (with_self (selected (set_child_profile (self w) k) k) w).
Proof.
  intros Hk. unfold content in Hk. unfold ProfilesSpawner.load_child_class.
  unfold bind at 1, try_except_KeyError.
  unfold bind at 1, dict_getitem, bind at 1, deref.
  destruct Hk as [Hk|[Hk ->]]; rewrite Hk.
  - unfold ret at 1. unfold as_Unicode. cbn [unicode_of].
    unfold bind at 1, ret at 1.
    do 2 run_step. by rewrite select_profile_run.
  - unfold raise at 1. do 2 run_step. by rewrite select_profile_run.
Qed.

(** X14.  [clear_state] followed by [construct_child] on a plain
    [WrapSpawner] always returns a new instance: a child that was held has
    received [clear_state] and is not the one returned.  The new child is
    of the class the supervisor had, but it is built with no keyword
    arguments and an empty state, since [clear_state] has replaced
    [child_config] and [child_state] by empty dicts. *)
Theorem clear_then_construct_builds_bare_child `{Environment} (w : World) :
  ∃ w' b,
    clear_then_construct w = Returns (Some (length (objs w))) w' ∧
    child_spawner (self w') = Some (length (objs w)) ∧
    objs w' = (match child_spawner (self w) with
               | Some c => alter (λ b, called CalledClearState (with_state ∅ b))
                             c (objs w)
               | None => objs w
               end ++ [b])%list ∧
    cs_type b = child_class (self w) ∧
    cs_kwargs b = ∅ ∧
    cs_state b = ∅ ∧
    cs_calls b = [CalledClearState].
Proof.
  unfold clear_then_construct. unfold bind at 1.
  assert (WrapSpawner.clear_state w
          = Returns ()
              {| dicts := dicts w ++ [∅; ∅];
                 objs := match child_spawner (self w) with
                         | Some c => alter (λ b, called CalledClearState (with_state ∅ b))
                                       c (objs w)
                         | None => objs w
                         end;
                 self := set_child_spawner
                           (set_child_config
                              (set_child_state (self w) (length (dicts w)))
                              (S (length (dicts w)))) None |}) as ->.
  { unfold WrapSpawner.clear_state, Spawner.clear_state. run_step.
    destruct (child_spawner (self w)) as [c|] eqn:Hc;
      unfold Child.clear_state; run_step;
      rewrite length_app, <- (assoc_L (++)); cbn [length app];
      rewrite Nat.add_1_r; reflexivity. }
  assert (∀ i : nat, (length (dicts w) ≤ i)%nat →
               default ∅ ((dicts w ++ [∅; ∅])%list !! i) = ∅) as Hnew.
  { intros i Hi. rewrite default_lookup_app_empty2.
    by rewrite lookup_ge_None_2. }
  rewrite construct_child_new; [|reflexivity|].
  2: { self_simpl. unfold loc in *. by rewrite Hnew by lia. }
  eexists _, _. split.
  { f_equal. f_equal. cbn [objs]. destruct (child_spawner (self w)); [|done].
    by rewrite length_alter. }
  self_simpl.
  split.
  { f_equal. destruct (child_spawner (self w)); [|done]. by rewrite length_alter. }
  split; [reflexivity|].
  unfold built_child. self_simpl. unfold loc in *.
  rewrite !Hnew by lia.
  assert (dict_truthy ∅ = false) as -> by reflexivity.
  by cbn.
Qed.

(** X15.  The recovery path.  A [ProfilesSpawner] without a child, whose
    user options name the profile that the state names, loads a state
    holding ['child_conf'] and ['child_state']: the child is rebuilt from
    the class of that profile, with the saved config merged over the
    profile's config as keyword arguments (saved entries win), where the
    merged config repeats none of the keywords that the constructor call
    gives by name.  The child receives [clear_state] and then, exactly when
    the saved child state is not empty, [load_state] with it. *)
Theorem load_state_rebuilds_child_of_profile `{Environment}
    (w : World) (state o cs : loc) (before after : list Profile) (P : Profile) :
  child_spawner (self w) = None →
  chosen_key (user_options (self w)) = Some (p1_key P) →
  profiles (self w) = (before ++ P :: after)%list →
  Forall (λ p, p1_key p ≠ p1_key P) before →
  content w state !! "profile" = Some (VStr (p1_key P)) →
  content w state !! "child_conf" = Some (VDict o) →
  content w state !! "child_state" = Some (VDict cs) →
  p4_config P < length (dicts w) →
  state ≠ p4_config P →
  cs ≠ p4_config P →
  repeated_keyword (content w o ∪ content w (p4_config P)) = None →
  ∃ w' b,
    ProfilesSpawner.load_state state w = Returns () w' ∧
    child_spawner (self w') = Some (length (objs w)) ∧
    objs w' = (objs w ++ [b])%list ∧
    cs_type b = p3_type P ∧
    cs_kwargs b = content w o ∪ content w (p4_config P) ∧
    cs_state b = content w cs ∧
    cs_calls b =
      CalledClearState ::
      (if decide (content w cs = ∅) then [] else [CalledLoadState (content w cs)]) ∧
    child_profile (self w') = p1_key P ∧
    child_class (self w') = p3_type P ∧
    child_config (self w') = p4_config P ∧
    child_state (self w') = cs.
Proof.
  intros Hnone Hkey Hps Hbefore Hprofile Hconf Hstate Hvalid Hne Hcs Hrep.
  assert (default ∅ ((<[p4_config P := content w o ∪ content w (p4_config P)]> (dicts w)
                       ++ [∅; ∅])%list !! p4_config P)
          = content w o ∪ content w (p4_config P)) as Hkw.
  { rewrite default_lookup_app_empty2.
    by rewrite list_lookup_insert_eq. }
  assert (default ∅ ((<[p4_config P := content w o ∪ content w (p4_config P)]> (dicts w)
                       ++ [∅; ∅])%list !! cs)
          = content w cs) as Hst.
  { rewrite default_lookup_app_empty2.
    by rewrite list_lookup_insert_ne. }
  unfold ProfilesSpawner.load_state. rewrite load_state_split.
  cbn [do_load_child_class do_construct_child ProfilesSpawner.methods].
  unfold bind at 1. rewrite (load_child_class_run _ _ (p1_key P)) by (by left).
  rewrite (selected_known _ before after P) by done.
  unfold bind at 1.
  erewrite load_conf_and_state_run; cycle 1.
  { exact Hvalid. }
  { exact Hne. }
  { unfold merged_conf. cbn [with_self self set_child_config child_config].
    change (content (with_self ?s w) ?d) with (content w d).
    rewrite Hconf. reflexivity. }
  { unfold loaded_child_state.
    change (content (with_self ?s w) ?d) with (content w d).
    rewrite Hstate. reflexivity. }
  cbn [with_self self dicts objs set_child_config child_config].
  unfold bind at 1.
  erewrite (ProfilesSpawner_construct_child_new _ (p1_key P));
    [|exact Hnone|exact Hkey|].
  2: { cbn [dicts objs self].
       rewrite (selected_known _ before after P) by done.
       self_simpl. unfold loc in *. by rewrite Hkw. }
  cbn [dicts objs self]. unfold ret.
  rewrite (selected_known _ before after P) by done.
  eexists _, _. split; [reflexivity|].
  cbn [self objs set_child_spawner set_child_config set_child_class
       set_child_profile set_child_state child_spawner child_profile
       child_class child_config child_state].
  split; [reflexivity|]. split; [reflexivity|].
  split; [|split; [|split; [|split]]].
  - unfold built_child. by destruct (dict_truthy _).
  - unfold built_child. self_simpl. unfold loc in *. rewrite Hkw.
    by destruct (dict_truthy _).
  - rewrite built_child_state. self_simpl. unfold loc in *. by rewrite Hst.
  - rewrite built_child_calls. self_simpl. unfold loc in *.
    by rewrite Hst.
  - done.
Qed.

Lemma load_state_rebuilds_child_of_profile_witness :
  child_spawner (self saved_world) = None ∧
  content saved_world 3%nat !! "profile" = Some (VStr "local") ∧
  repeated_keyword (content saved_world 4%nat ∪ content saved_world 0%nat) = None ∧
  ∃ w' b,
    @ProfilesSpawner.load_state demo_env 3%nat saved_world = Returns () w' ∧
    child_spawner (self w') = Some 0%nat ∧
    objs w' = [b] ∧
    cs_type b = LocalProcessSpawner ∧
    cs_kwargs b = content saved_world 4%nat ∪ content saved_world 0%nat ∧
    cs_state b = content saved_world 5%nat ∧
    cs_calls b =
      CalledClearState ::
      (if decide (content saved_world 5%nat = ∅) then []
       else [CalledLoadState (content saved_world 5%nat)]) ∧
    child_profile (self w') = "local" ∧
    child_class (self w') = LocalProcessSpawner ∧
    child_config (self w') = 0%nat ∧
    child_state (self w') = 5%nat.
Proof.
  split; [reflexivity|]. split; [reflexivity|].
  split; [reflexivity|].
  refine (@load_state_rebuilds_child_of_profile demo_env saved_world
            3%nat 4%nat 5%nat [] [] (ProfilesSpawner.default_profile 0%nat)
            eq_refl eq_refl eq_refl (Forall_nil_2 _) eq_refl eq_refl eq_refl
            _ _ _ eq_refl); simpl; lia.
Defined.

(** X16.  A plain [WrapSpawner] without a child loads a state holding
    ['child_conf'] and ['child_state'], where the saved config merged over
    its own repeats none of the keywords that the constructor call gives by
    name: the saved config is merged into its own [child_config] dict in
    place (saved entries win), the child is built with the merged config
    and given the saved child state, and [child_class] is the one the
    supervisor already had: the state does not carry the class. *)
Theorem WrapSpawner_load_state_restores_config_and_state `{Environment}
    (w : World) (state o cs : loc) :
  child_spawner (self w) = None →
  content w state !! "child_conf" = Some (VDict o) →
  content w state !! "child_state" = Some (VDict cs) →
  child_config (self w) < length (dicts w) →
  state ≠ child_config (self w) →
  cs ≠ child_config (self w) →
  repeated_keyword (content w o ∪ content w (child_config (self w))) = None →
  ∃ w' b,
    WrapSpawner_load_state state w = Returns () w' ∧
    child_spawner (self w') = Some (length (objs w)) ∧
    objs w' = (objs w ++ [b])%list ∧
    cs_type b = child_class (self w) ∧
    cs_kwargs b = content w o ∪ content w (child_config (self w)) ∧
    cs_state b = content w cs ∧
    child_class (self w') = child_class (self w) ∧
    child_config (self w') = child_config (self w) ∧
    content w' (child_config (self w')) = content w o ∪ content w (child_config (self w)) ∧
    child_state (self w') = cs.
Proof.
  intros Hnone Hconf Hstate Hvalid Hne Hcs Hrep.
  assert (default ∅ ((<[child_config (self w) :=
                          content w o ∪ content w (child_config (self w))]> (dicts w)
                       ++ [∅; ∅])%list !! child_config (self w))
          = content w o ∪ content w (child_config (self w))) as Hkw.
  { rewrite default_lookup_app_empty2. by rewrite list_lookup_insert_eq. }
  assert (default ∅ ((<[child_config (self w) :=
                          content w o ∪ content w (child_config (self w))]> (dicts w)
                       ++ [∅; ∅])%list !! cs)
          = content w cs) as Hst.
  { rewrite default_lookup_app_empty2. by rewrite list_lookup_insert_ne. }
  unfold WrapSpawner_load_state. rewrite load_state_split.
  cbn [do_load_child_class do_construct_child WrapSpawner.methods].
  unfold bind at 1, WrapSpawner.load_child_class, ret at 1.
  unfold bind at 1.
  erewrite load_conf_and_state_run; cycle 1.
  { exact Hvalid. }
  { exact Hne. }
  { unfold merged_conf. rewrite Hconf. reflexivity. }
  { unfold loaded_child_state. rewrite Hstate. reflexivity. }
  unfold bind at 1. rewrite construct_child_new; [|exact Hnone|].
  2: { self_simpl. unfold loc in *. by rewrite Hkw. }
  unfold ret. eexists _, _. split; [reflexivity|]. self_simpl.
  split; [reflexivity|]. split; [reflexivity|].
  split; [|split; [|split; [|split; [|split; [|split]]]]]; try reflexivity.
  - unfold built_child. by destruct (dict_truthy _).
  - unfold built_child. self_simpl. unfold loc in *. rewrite Hkw.
    by destruct (dict_truthy _).
  - rewrite built_child_state. self_simpl. unfold loc in *. by rewrite Hst.
  - unfold content at 1. self_simpl. unfold loc in *. exact Hkw.
Qed.

Lemma WrapSpawner_load_state_restores_config_and_state_witness :
  child_spawner (self saved_world) = None ∧
  content saved_world 3%nat !! "child_conf" = Some (VDict 4%nat) ∧
  content saved_world 3%nat !! "child_state" = Some (VDict 5%nat) ∧
  repeated_keyword (content saved_world 4%nat ∪ content saved_world 1%nat) = None ∧
  ∃ w' b,
    @WrapSpawner_load_state demo_env 3%nat saved_world = Returns () w' ∧
    child_spawner (self w') = Some 0%nat ∧
    objs w' = [b] ∧
    cs_type b = LocalProcessSpawner ∧
    cs_kwargs b = content saved_world 4%nat ∪ content saved_world 1%nat ∧
    cs_state b = content saved_world 5%nat ∧
    child_class (self w') = LocalProcessSpawner ∧
    child_config (self w') = 1%nat ∧
    content w' (child_config (self w'))
    = content saved_world 4%nat ∪ content saved_world 1%nat ∧
    child_state (self w') = 5%nat.
Proof.
  split; [reflexivity|]. split; [reflexivity|]. split; [reflexivity|].
  split; [reflexivity|].
  refine (@WrapSpawner_load_state_restores_config_and_state demo_env saved_world
            3%nat 4%nat 5%nat eq_refl eq_refl eq_refl _ _ _ eq_refl); simpl; lia.
Defined.

(** X17.  On a [ProfilesSpawner] without a child whose catalog has no
    entry with the key [''], loading a state that has none of the keys
    ['profile'], ['child_conf'], ['child_state'] does not fail on the
    missing keys: every lookup falls back.  Where the config that the
    user's choice selects repeats none of the keywords that the constructor
    call gives by name, the child is built as the user options say, it
    receives [clear_state] only, [child_state] is a new empty dict, and no
    existing dict is written to. *)
Theorem load_state_of_empty_state `{Environment}
    (w : World) (state : loc) (k : string) :
  child_spawner (self w) = None →
  chosen_key (user_options (self w)) = Some k →
  "" ∉ p1_key <$> profiles (self w) →
  content w state !! "profile" = None →
  content w state !! "child_conf" = None →
  content w state !! "child_state" = None →
  child_config (self w) < length (dicts w) →
  state ≠ child_config (self w) →
  repeated_keyword
    (content w (child_config (selected (set_child_profile (self w) k) k))) = None →
  ∃ w' b,
    ProfilesSpawner.load_state state w = Returns () w' ∧
    child_spawner (self w') = Some (length (objs w)) ∧
    objs w' = (objs w ++ [b])%list ∧
    cs_calls b = [CalledClearState] ∧
    cs_type b = child_class (self w') ∧
    self w' = set_child_spawner
                (selected (set_child_profile
                             (set_child_state (self w) (S (length (dicts w)))) k) k)
                (Some (length (objs w))) ∧
    dicts w' = (dicts w ++ [∅; ∅])%list.
Proof.
  intros Hnone Hkey Hmiss Hprofile Hconf Hstate Hvalid Hne Hrep.
  pose proof (first_with_key_miss _ _ Hmiss) as Hfirst.
  unfold ProfilesSpawner.load_state. rewrite load_state_split.
  cbn [do_load_child_class do_construct_child ProfilesSpawner.methods].
  unfold bind at 1. rewrite (load_child_class_run _ _ "") by (by right).
  unfold selected at 1. self_simpl. rewrite Hfirst.
  unfold bind at 1.
  erewrite load_conf_and_state_run; cycle 1.
  { exact Hvalid. }
  { exact Hne. }
  { unfold merged_conf.
    change (content (with_self ?s w) ?d) with (content w d).
    rewrite Hconf. reflexivity. }
  { unfold loaded_child_state.
    change (content (with_self ?s w) ?d) with (content w d).
    rewrite Hstate. reflexivity. }
  self_simpl. unfold bind at 1.
  erewrite (ProfilesSpawner_construct_child_new _ k); [|exact Hnone|exact Hkey|].
  2: { self_simpl. unfold loc in *. rewrite default_lookup_app_empty2.
       rewrite child_config_selected. rewrite child_config_selected in Hrep.
       exact Hrep. }
  unfold ret. eexists _, _. split; [reflexivity|]. self_simpl.
  split; [reflexivity|]. split; [reflexivity|].
  assert (∀ s, child_state s = S (length (dicts w)) →
               cs_calls (built_child (dicts w ++ [∅; ∅]) s) = [CalledClearState])
    as Hcalls.
  { intros s Hs. rewrite built_child_calls, Hs. unfold loc in *.
    rewrite default_lookup_app_empty2.
    rewrite lookup_ge_None_2 by lia. cbn [default from_option id].
    by destruct (decide _). }
  split; [|split].
  - apply Hcalls. by rewrite (proj1 (proj2 (selected_frame _ _))).
  - unfold built_child. self_simpl. by destruct (dict_truthy _).
  - split; reflexivity.
Qed.

Lemma load_state_of_empty_state_witness :
  child_spawner (self saved_world) = None ∧
  content saved_world 6%nat = ∅ ∧
  ("" ∉ p1_key <$> profiles (self saved_world)) ∧
  repeated_keyword (content saved_world 0%nat) = None ∧
  ∃ w' b,
    @ProfilesSpawner.load_state demo_env 6%nat saved_world = Returns () w' ∧
    child_spawner (self w') = Some 0%nat ∧
    objs w' = [b] ∧
    cs_calls b = [CalledClearState] ∧
    cs_type b = child_class (self w') ∧
    self w' = set_child_spawner
                (selected (set_child_profile
                             (set_child_state (self saved_world) 8%nat) "local")
                   "local")
                (Some 0%nat) ∧
    dicts w' = (dicts saved_world ++ [∅; ∅])%list.
Proof.
  assert ("" ∉ p1_key <$> profiles (self saved_world)) as Hmiss.
  { simpl. intros Hin. apply list_elem_of_singleton in Hin. discriminate Hin. }
  split; [reflexivity|]. split; [reflexivity|]. split; [exact Hmiss|].
  split; [reflexivity|].
  refine (@load_state_of_empty_state demo_env saved_world 6%nat "local"
            eq_refl eq_refl Hmiss eq_refl eq_refl eq_refl _ _ eq_refl).
  - simpl. lia.
  - simpl. lia.
Defined.

(** ** What load_state never does *)

Lemma steady_bind {A B} (m : Py A) (k : A → Py B) :
  steady m → (∀ a, steady (k a)) → steady (bind m k).
Proof.
  intros Hm Hk w b w' Hrun.
  apply bind_returns in Hrun as (a & w1 & H1 & H2).
  destruct (Hm _ _ _ H1) as [Ho Hc]. destruct (Hk _ _ _ _ H2) as [Ho' Hc'].
  split; congruence.
Qed.

Lemma steady_ret {A} (a : A) : steady (ret a).
Proof. intros w a' w' Hrun. inversion Hrun; subst. done. Qed.

Lemma steady_raise {A} (e : Exn) : steady (@raise A e).
Proof. intros w a w' Hrun. inversion Hrun. Qed.

Lemma steady_get_self : steady get_self.
Proof. intros w a w' Hrun. inversion Hrun; subst. done. Qed.

Lemma steady_deref d : steady (deref d).
Proof. intros w a w' Hrun. inversion Hrun; subst. done. Qed.

Lemma steady_store d m : steady (store d m).
Proof. intros w a w' Hrun. inversion Hrun; subst. done. Qed.

Lemma steady_new_dict m : steady (new_dict m).
Proof. intros w a w' Hrun. inversion Hrun; subst. done. Qed.

Lemma steady_assign (g : Self → Self) :
  (∀ s, child_spawner (g s) = child_spawner s) → steady (assign g).
Proof. intros Hg w a w' Hrun. inversion Hrun; subst. cbn [objs self]. auto. Qed.

Lemma steady_try_except_KeyError {A} (body handler : Py A) :
  steady body → steady handler → steady (try_except_KeyError body handler).
Proof.
  intros Hb Hh w a w'. unfold try_except_KeyError.
  destruct (body w) as [a1 w1|e] eqn:Hbody.
  - intros Heq. inversion Heq; subst. by eapply Hb.
  - destruct e; try discriminate. apply Hh.
Qed.

Ltac steady_step :=
  lazymatch goal with
  | |- steady (bind _ _) => apply steady_bind; [|intros ?]
  | |- steady (ret _) => apply steady_ret
  | |- steady (raise _) => apply steady_raise
  | |- steady get_self => apply steady_get_self
  | |- steady (deref _) => apply steady_deref
  | |- steady (store _ _) => apply steady_store
  | |- steady (new_dict _) => apply steady_new_dict
  | |- steady (assign _) => apply steady_assign; intros ?; reflexivity
  | |- steady (try_except_KeyError _ _) => apply steady_try_except_KeyError
  | |- steady (match ?x with _ => _ end) => destruct x
  end.

Lemma steady_select_profile (k : string) : steady (ProfilesSpawner.select_profile k).
Proof.
  intros w a w' Hrun. rewrite select_profile_run in Hrun.
  inversion Hrun; subst. cbn [with_self objs self].
  split; [done|]. apply selected_frame.
Qed.

Lemma steady_load_child_class (state : loc) :
  steady (ProfilesSpawner.load_child_class state).
Proof.
  unfold ProfilesSpawner.load_child_class, dict_getitem, as_Unicode.
  repeat steady_step. apply steady_select_profile.
Qed.

Lemma steady_load_conf_and_state (state : loc) :
  steady (load_conf_and_state state).
Proof.
  unfold load_conf_and_state, dict_get, dict_update, as_Dict.
  repeat steady_step.
Qed.


(** X18.  [load_state] on a [ProfilesSpawner] that already holds a child
    never rebuilds, clears or reloads it: whenever the call returns, every
    child instance is as it was and the supervisor holds the same child.
    The state just loaded has not reached the child. *)
Theorem load_state_leaves_existing_child_alone `{Environment}
    (w w' : World) (state c : loc) (u : unit) :
  child_spawner (self w) = Some c →
  ProfilesSpawner.load_state state w = Returns u w' →
  objs w' = objs w ∧ child_spawner (self w') = Some c.
Proof.
  intros Hc. unfold ProfilesSpawner.load_state. rewrite load_state_split.
  cbn [do_load_child_class do_construct_child ProfilesSpawner.methods].
  intros Hrun.
  apply bind_returns in Hrun as (u1 & w1 & Hlcc & Hrun).
  apply bind_returns in Hrun as (u2 & w2 & Hconf & Hrun).
  apply bind_returns in Hrun as (r & w3 & Hcc & Hret).
  inversion Hret; subst; clear Hret.
  destruct (steady_load_child_class _ _ _ _ Hlcc) as [Ho1 Hc1].
  destruct (steady_load_conf_and_state _ _ _ _ Hconf) as [Ho2 Hc2].
  assert (child_spawner (self w2) = Some c) as Hc' by congruence.
  destruct (construct_child_returns_key _ _ _ Hcc) as [k Hk].
  rewrite (ProfilesSpawner_construct_child_existing w2 c k Hc' Hk) in Hcc.
  inversion Hcc; subst; clear Hcc. cbn [with_self objs self].
  split; [congruence|].
  by rewrite (proj1 (proj2 (proj2 (selected_frame _ _)))).
Qed.

Lemma load_state_leaves_existing_child_alone_witness :
  child_spawner (self built_world) = Some 0%nat ∧
  ∃ w',
    @ProfilesSpawner.load_state demo_env 1%nat built_world = Returns () w' ∧
    objs w' = objs built_world ∧ child_spawner (self w') = Some 0%nat.
Proof.
  split; [reflexivity|]. eexists. split; [vm_compute; reflexivity|].
  eapply (@load_state_leaves_existing_child_alone demo_env built_world _
            1%nat 0%nat ()); [reflexivity | vm_compute; reflexivity].
Defined.

(** X19.  On a plain [WrapSpawner], [load_state] never changes
    [child_class], whatever the state holds. *)
Theorem WrapSpawner_load_state_keeps_child_class `{Environment}
    (w w' : World) (state : loc) (u : unit) :
  WrapSpawner_load_state state w = Returns u w' →
  child_class (self w') = child_class (self w).
Proof.
  revert w u w'. change (keeps child_class (WrapSpawner_load_state state)).
  unfold WrapSpawner_load_state, WrapSpawner.load_state,
    Spawner.load_state, WrapSpawner.load_child_class.
  cbn [do_load_child_class do_construct_child WrapSpawner.methods].
  apply keeps_bind; [apply keeps_ret|]. intros _.
  apply keeps_bind; [apply keeps_ret|]. intros _.
  apply keeps_bind; [apply keeps_get_self|]. intros s.
  apply keeps_bind; [apply keeps_new_dict|]. intros e1.
  apply keeps_bind; [apply keeps_dict_get|]. intros conf.
  apply keeps_bind; [apply keeps_dict_update|]. intros _.
  apply keeps_bind; [apply keeps_new_dict|]. intros e2.
  apply keeps_bind; [apply keeps_dict_get|]. intros st.
  apply keeps_bind; [apply keeps_as_Dict|]. intros st'.
  apply keeps_bind; [by apply keeps_assign|]. intros _.
  apply keeps_bind; [by apply keeps_WrapSpawner_construct_child|]. intros _.
  apply keeps_ret.
Qed.

Lemma WrapSpawner_load_state_keeps_child_class_witness :
  ∃ w',
    @WrapSpawner_load_state demo_env 3%nat
      (with_self (set_child_class (self saved_world)
                    (SpawnerSubclass "DockerSpawner")) saved_world)
    = Returns () w' ∧
    child_class (self w') = SpawnerSubclass "DockerSpawner".
Proof.
  eexists. split; [vm_compute; reflexivity|].
  eapply (@WrapSpawner_load_state_keeps_child_class demo_env
            (with_self (set_child_class (self saved_world)
                          (SpawnerSubclass "DockerSpawner")) saved_world)
            _ 3%nat ()).
  vm_compute; reflexivity.
Defined.

(** ** Saving and reloading on one supervisor *)

(** X20.  A supervisor that holds a child and whose [child_profile],
    [child_class] and [child_config] agree with the user's choice (as
    [construct_child] leaves them) saves its state and loads it straight
    back: class, config, profile and child are unchanged, the child has
    received nothing but the [get_state] call, no dict that existed has
    changed, and [child_state] names a new dict that holds the child's
    state. *)
Theorem save_and_reload_same_supervisor `{Environment}
    (w : World) (c : loc) (b : ChildSpawner) (k : string) :
  child_spawner (self w) = Some c →
  objs w !! c = Some b →
  chosen_key (user_options (self w)) = Some k →
  child_profile (self w) = k →
  selected (self w) k = self w →
  child_config (self w) < length (dicts w) →
  ∃ w',
    save_and_reload w = Returns () w' ∧
    self w' = set_child_state (self w) (S (length (dicts w))) ∧
    objs w' = <[c := called CalledGetState b]> (objs w) ∧
    (∀ d, d < length (dicts w) → dicts w' !! d = dicts w !! d) ∧
    content w' (child_state (self w')) = cs_state b.
Proof.
  intros Hc Hb Hkey Hprof Hsel Hvalid.
  unfold save_and_reload. unfold bind at 1.
  rewrite (get_state_with_child_run w c b Hc Hb).
  unfold ProfilesSpawner.load_state. rewrite load_state_split.
  cbn [do_load_child_class do_construct_child ProfilesSpawner.methods].
  set (n := length (dicts w)).
  set (st := ({[ "child_conf" := VDict (child_config (self w));
                 "child_state" := VDict (S n);
                 "profile" := VStr (child_profile (self w)) ]} : dict)).
  assert (∀ W, dicts W = (dicts w ++ [st; cs_state b])%list → content W n = st)
    as Hst.
  { intros W HW. unfold content. rewrite HW. unfold n. by rewrite lookup_last2. }
  assert (selected (set_child_profile (set_child_state (self w) (S n)) k) k
          = set_child_state (self w) (S n)) as Hsel'.
  { rewrite <- Hsel at 2. rewrite <- Hprof. unfold selected. self_simpl.
    destruct (first_with_key (profiles (self w)) (child_profile (self w)));
      by destruct (self w). }
  unfold bind at 1. rewrite (load_child_class_run _ _ k); cycle 1.
  { left. rewrite Hst by reflexivity. unfold st. rewrite Hprof. by simplify_map_eq. }
  self_simpl. rewrite Hsel'.
  unfold bind at 1.
  erewrite load_conf_and_state_run; cycle 1.
  { self_simpl. rewrite length_app. fold n. lia. }
  { self_simpl. fold n in Hvalid. lia. }
  { unfold merged_conf. rewrite Hst by reflexivity. unfold st. simplify_map_eq.
    reflexivity. }
  { unfold loaded_child_state. rewrite Hst by reflexivity. unfold st.
    simplify_map_eq. reflexivity. }
  self_simpl. unfold bind at 1.
  rewrite (ProfilesSpawner_construct_child_existing _ c k) by (self_simpl; done).
  self_simpl.
  change (set_child_state (set_child_state (self w) (S n)) (S n))
    with (set_child_state (self w) (S n)).
  rewrite Hsel'. unfold ret.
  eexists. split; [reflexivity|]. self_simpl.
  split; [reflexivity|]. split; [by apply alter_valid|].
  unfold content. self_simpl. unfold loc in *.
  rewrite !(idemp_L (∪)), !insert_default_id.
  split.
  - intros d Hd. unfold loc in *.
    rewrite lookup_app_l by (rewrite length_app; lia).
    by rewrite lookup_app_l.
  - fold n.
    rewrite lookup_app_l by (rewrite length_app; cbn [length]; lia).
    rewrite lookup_app_r by (unfold n; lia).
    replace (S n - length (dicts w)) with 1 by (unfold n; lia). done.
Qed.

Lemma save_and_reload_same_supervisor_witness :
  child_spawner (self built_world) = Some 0%nat ∧
  child_profile (self built_world) = "local" ∧
  selected (self built_world) "local" = self built_world ∧
  ∃ b, objs built_world !! 0%nat = Some b ∧
  ∃ w',
    @save_and_reload demo_env built_world = Returns () w' ∧
    self w' = set_child_state (self built_world) 4%nat ∧
    objs w' = <[0%nat := called CalledGetState b]> (objs built_world) ∧
    (∀ d, d < 3 → dicts w' !! d = dicts built_world !! d) ∧
    content w' (child_state (self w')) = cs_state b.
Proof.
  split; [reflexivity|]. split; [reflexivity|]. split; [reflexivity|].
  eexists. split; [reflexivity|].
  refine (@save_and_reload_same_supervisor demo_env built_world 0%nat _ "local"
            eq_refl eq_refl eq_refl eq_refl eq_refl _).
  vm_compute. lia.
Defined.

(** ** construct_child is idempotent in its effect *)

Lemma selected_fix (s0 : Self) (k : string) (o : option loc) :
  child_profile s0 = k →
  selected (set_child_profile (set_child_spawner (selected s0 k) o) k) k
  = set_child_spawner (selected s0 k) o.
Proof.
  intros Hk. unfold selected. self_simpl.
  destruct (first_with_key (profiles s0) k) as [p|] eqn:Hp; self_simpl;
    rewrite Hp; destruct s0; cbn in *; by subst.
Qed.

(** X21.  Whenever [load_state] returns on a [ProfilesSpawner], the
    [child_profile] it leaves is the one the user options record (or ['']
    when they record none): the identifier that the state carried under
    ['profile'] does not survive the call. *)
Theorem load_state_takes_profile_from_user_options `{Environment}
    (w w' : World) (state : loc) (u : unit) :
  ProfilesSpawner.load_state state w = Returns u w' →
  chosen_key (user_options (self w)) = Some (child_profile (self w')).
Proof.
  intros Hrun. apply ProfilesSpawner_load_state_profile in Hrun.
  unfold profile_from_options in Hrun. unfold chosen_key.
  destruct (user_options (self w) !! "profile") as [v|]; cbn in Hrun.
  - by rewrite <- Hrun.
  - by injection Hrun as ->.
Qed.

Lemma load_state_takes_profile_from_user_options_witness :
  content saved_world 3%nat !! "profile" = Some (VStr "local") ∧
  ∃ w',
    @ProfilesSpawner.load_state demo_env 3%nat
      (with_self (fresh_self ∅) saved_world) = Returns () w' ∧
    chosen_key ∅ = Some (child_profile (self w')) ∧
    child_profile (self w') = "".
Proof.
  split; [reflexivity|]. eexists. split; [vm_compute; reflexivity|].
  split; [|reflexivity].
  eapply (@load_state_takes_profile_from_user_options demo_env
            (with_self (fresh_self ∅) saved_world) _ 3%nat ()).
  vm_compute; reflexivity.
Defined.

(** X22.  Once [ProfilesSpawner.construct_child] has returned, calling it
    again changes nothing at all: no new child, no call to the child, the
    same selection.  Both calls return [None]. *)
Theorem ProfilesSpawner_construct_child_twice_same_world `{Environment}
    (w w1 : World) (r : option loc) :
  ProfilesSpawner.construct_child w = Returns r w1 →
  r = None ∧ ProfilesSpawner.construct_child w1 = Returns None w1.
Proof.
  intros Hrun. destruct (construct_child_returns_key _ _ _ Hrun) as [k Hk].
  assert (∃ o c, r = None ∧ o = Some c ∧ dicts w1 = dicts w1 ∧
                 self w1 = set_child_spawner
                             (selected (set_child_profile (self w) k) k) o)
    as (o & c & -> & -> & _ & Hself).
  { destruct (child_spawner (self w)) as [c|] eqn:Hc.
    - rewrite (ProfilesSpawner_construct_child_existing w c k Hc Hk) in Hrun.
      inversion Hrun; subst. exists (Some c), c. cbn [with_self self].
      repeat split.
      assert (child_spawner (selected (set_child_profile (self w) k) k) = Some c)
        as HS by (by rewrite (proj1 (proj2 (proj2 (selected_frame _ _))))).
      destruct (selected (set_child_profile (self w) k) k); cbn in *; by subst.
    - destruct (repeated_keyword
                  (default ∅ (dicts w !! child_config
                                (selected (set_child_profile (self w) k) k))))
        as [kw|] eqn:Hkw.
      + by rewrite (ProfilesSpawner_construct_child_clash w k kw Hc Hk Hkw) in Hrun.
      + rewrite (ProfilesSpawner_construct_child_new w k Hc Hk Hkw) in Hrun.
        inversion Hrun; subst. by eexists _, _. }
  split; [reflexivity|].
  rewrite (ProfilesSpawner_construct_child_existing w1 c k).
  - rewrite Hself, selected_fix by reflexivity. rewrite <- Hself.
    by rewrite with_self_self.
  - by rewrite Hself.
  - rewrite Hself. cbn [user_options set_child_spawner].
    by rewrite (proj1 (selected_frame _ _)).
Qed.

Lemma ProfilesSpawner_construct_child_twice_same_world_witness :
  @ProfilesSpawner.construct_child demo_env
    (fresh_world {[ "profile" := VStr "local" ]}) = Returns None built_world ∧
  (@None loc) = None ∧
  @ProfilesSpawner.construct_child demo_env built_world = Returns None built_world.
Proof.
  split; [vm_compute; reflexivity|].
  eapply (@ProfilesSpawner_construct_child_twice_same_world demo_env
            (fresh_world {[ "profile" := VStr "local" ]}) built_world None).
  vm_compute; reflexivity.
Defined.

(** X23.  Once [WrapSpawner.construct_child] has returned an instance,
    calling it again returns the same instance and changes nothing. *)
Theorem WrapSpawner_construct_child_twice_same_instance `{Environment}
    (w w1 : World) (r : option loc) :
  WrapSpawner.construct_child w = Returns r w1 →
  is_Some r ∧ WrapSpawner.construct_child w1 = Returns r w1.
Proof.
  intros Hrun.
  apply construct_child_returns in Hrun as [(c & Hc & -> & ->)|(Hc & _ & -> & ->)].
  - split; [by eexists|]. by apply construct_child_existing.
  - split; [by eexists|]. by apply construct_child_existing.
Qed.

Lemma WrapSpawner_construct_child_twice_same_instance_witness :
  ∃ w1,
    @WrapSpawner.construct_child demo_env (fresh_world ∅) = Returns (Some 0%nat) w1 ∧
    is_Some (Some 0%nat) ∧
    @WrapSpawner.construct_child demo_env w1 = Returns (Some 0%nat) w1.
Proof.
  eexists. split; [vm_compute; reflexivity|].
  eapply (@WrapSpawner_construct_child_twice_same_instance demo_env
            (fresh_world ∅) _ (Some 0%nat)).
  vm_compute; reflexivity.
Defined.
